(** * subdivided_triangulated_cube_part_1_start.py: the script over an abstract host

    The script only talks to its host (the [bpy] module and the Python
    runtime).  Every function of the script is embedded as a computation in
    a small state-and-exception monad; the host is a parameter: a type of
    host states, a pure [observe] for attribute and collection reads, and a
    [perform] for calls that may change the host or raise.  Every performed
    call is appended to a call log, so that statements such as "issues
    exactly one purge call" can be made about the script itself. *)

From Stdlib Require Import List String ZArith QArith Lia Bool Arith DecimalString.
Import ListNotations.
Close Scope Q_scope.
Open Scope string_scope.
Open Scope list_scope.

Set Warnings "-register-all".

(** ** Python values and exceptions *)

Inductive pyval : Type :=
| PNone
| PBool (b : bool)
| PInt (z : Z)
| PFloat (q : Q)
| PStr (s : string)
| PTuple (l : list pyval).

(** Truth value testing of the built-in types. *)
Definition truthy (v : pyval) : bool :=
  match v with
  | PNone => false
  | PBool b => b
  | PInt z => negb (Z.eqb z 0)
  | PFloat q => negb (Qeq_bool q 0)
  | PStr s => negb (String.eqb s "")
  | PTuple l => match l with [] => false | _ => true end
  end.

Inductive exn : Type :=
| AttributeError (owner attr : string)
| KeyError (key : string)
| IndexError (index : nat)
| RuntimeError (msg : string)
| TypeError (msg : string).

(** Lexicographic [>=] on 3-tuples of integers, as Python compares
    [bpy.app.version >= (3, 0, 0)]. *)
Definition tuple_ge (a b : Z * Z * Z) : bool :=
  let '(a1, a2, a3) := a in
  let '(b1, b2, b3) := b in
  if Z.eqb a1 b1
  then if Z.eqb a2 b2 then Z.leb b3 a3 else Z.ltb b2 a2
  else Z.ltb b1 a1.

(** ** Handles of host data *)

Definition obj := nat.
(** Collections and worlds are looked up by name in [bpy.data]; their
    handle is that name. *)
Definition coll := string.
Definition wrld := string.
Definition anim := nat.
Definition action := nat.
Definition fcurve := nat.
Definition ntree := nat.
Definition node := nat.
Definition socket := nat.
Definition link := nat.

(** ** Host interface *)

(** Reads: attribute reads and collection lookups.  A lookup that Python
    would answer with an exception is an [option]; the exception is raised
    by the embedding of the script. *)
Inductive Read : Type -> Type :=
| app_version : Read (Z * Z * Z)
| context_active_object : Read (option obj)
| obj_mode (o : obj) : Read string
| obj_hide_get (o : obj) : Read bool
| obj_hide_select (o : obj) : Read bool
| obj_hide_viewport (o : obj) : Read bool
| obj_select_get (o : obj) : Read bool
| obj_location (o : obj) : Read pyval
| obj_scale (o : obj) : Read pyval
| obj_modifiers (o : obj) : Read (list string)
| obj_animation_data (o : obj) : Read (option anim)
| anim_action (a : anim) : Read (option action)
| action_fcurves (a : action) : Read (list fcurve)
| fcurve_extrapolation (fc : fcurve) : Read string
| data_objects : Read (list obj)
| data_collection_names : Read (list string)
| data_collections_get (name : string) : Read (option coll)
| data_world_names : Read (list string)
| data_worlds_get (name : string) : Read (option wrld)
| scene_world : Read (option wrld)
| world_node_tree (w : wrld) : Read (option ntree)
| nodes_contains (nt : ntree) (name : string) : Read bool
| nodes_get (nt : ntree) (name : string) : Read (option node)
| node_inputs_at (n : node) (i : nat) : Read (option socket)
| node_inputs_get (n : node) (name : string) : Read (option socket)
| node_outputs_get (n : node) (name : string) : Read (option socket)
| bpy_attr (name : string) : Read (option (pyval -> pyval))
| orphan_count : Read nat.

(** Calls: operators ([bpy.ops.*], answering with their status, the one
    element of the returned set), methods, attribute writes, and the calls
    into the Python runtime. *)
Inductive Op : Type -> Type :=
| ops_outliner_orphans_purge (kw : list (string * bool)) : Op string
| ops_object_editmode_toggle : Op string
| ops_object_select_all (action : string) : Op string
| ops_object_delete : Op string
| ops_world_new : Op string
| ops_mesh_primitive_plane_add (location : pyval) : Op string
| ops_mesh_primitive_cube_add (location : pyval) : Op string
| ops_mesh_primitive_uv_sphere_add (location : pyval) : Op string
| ops_node_new_geometry_nodes_modifier : Op string
| obj_hide_set (o : obj) (b : bool) : Op unit
| set_obj_hide_select (o : obj) (b : bool) : Op unit
| set_obj_hide_viewport (o : obj) (b : bool) : Op unit
| set_obj_location (o : obj) (v : pyval) : Op unit
| set_obj_scale (o : obj) (v : pyval) : Op unit
| py_setattr (o : obj) (data_path : string) (v : pyval) : Op unit
| keyframe_insert (o : obj) (data_path : string) (frame : Q) : Op bool
| set_fcurve_extrapolation (fc : fcurve) (v : string) : Op unit
| data_collections_remove (c : coll) : Op unit
| data_worlds_remove (w : wrld) : Op unit
| set_scene_world (w : wrld) : Op unit
| set_scene_frame_end (n : Z) : Op unit
| set_scene_render_fps (n : Z) : Op unit
| set_scene_frame_current (n : Z) : Op unit
| set_scene_frame_start (n : Z) : Op unit
| set_socket_default_value (s : socket) (v : pyval) : Op unit
| nodes_new (nt : ntree) (type : string) : Op node
| links_new (nt : ntree) (from_socket to_socket : socket) : Op link
| time_time : Op pyval
| py_print (line : string) : Op unit
| random_seed (v : pyval) : Op unit
| set_clipboard (s : string) : Op unit.

Class Host : Type := {
  world : Type;
  observe : forall R, Read R -> world -> R;
  perform : forall R, Op R -> world -> (exn + R) * world;
  (** [str(v)] of the Python runtime *)
  py_str : pyval -> string;
  (** [a + b] and [a * b] on the host's vector values *)
  py_add : pyval -> pyval -> pyval;
  py_mul : pyval -> pyval -> pyval
}.

Arguments observe {_} {R} _ _.
Arguments perform {_} {R} _ _.

(** An entry of the call log. *)
Inductive logged : Type :=
| Logged {R : Type} (c : Op R).

(** ** The monad of the script *)

Inductive result (A : Type) : Type :=
| Ok (a : A)
| Raise (e : exn)
| OutOfFuel.

Arguments Ok {A} a.
Arguments Raise {A} e.
Arguments OutOfFuel {A}.

Section Script.

Context {H : Host}.

Record St : Type := mkSt { host : world; calls : list logged }.

Definition M (A : Type) : Type := St -> result A * St.

Definition ret {A} (a : A) : M A := fun s => (Ok a, s).

Definition bind {A B} (m : M A) (k : A -> M B) : M B :=
  fun s =>
    match m s with
    | (Ok a, s') => k a s'
    | (Raise e, s') => (Raise e, s')
    | (OutOfFuel, s') => (OutOfFuel, s')
    end.

Definition raise {A} (e : exn) : M A := fun s => (Raise e, s).

Definition out_of_fuel {A} : M A := fun s => (OutOfFuel, s).

Definition read {R} (q : Read R) : M R := fun s => (Ok (observe q (host s)), s).

Definition op {R} (c : Op R) : M R :=
  fun s =>
    let '(r, w') := perform c (host s) in
    let s' := mkSt w' (calls s ++ [Logged c]) in
    match r with
    | inr v => (Ok v, s')
    | inl e => (Raise e, s')
    end.

End Script.

Declare Scope script_scope.
Delimit Scope script_scope with script.
Notation "x <- m ;; k" := (bind m (fun x => k))
  (at level 61, m at next level, right associativity) : script_scope.
Notation "m ;; k" := (bind m (fun _ => k))
  (at level 61, right associativity) : script_scope.
Open Scope script_scope.

Section Script_functions.

Context {H : Host}.

(** [for x in l: body(x)] *)
Fixpoint for_each {A} (l : list A) (body : A -> M unit) : M unit :=
  match l with
  | [] => ret tt
  | x :: rest => body x ;; for_each rest body
  end.

(** [x.attr] where [x] may be [None] *)
Definition attr_of {A} (x : option A) (attr : string) : M A :=
  match x with
  | Some a => ret a
  | None => raise (AttributeError "NoneType" attr)
  end.

(** [c[key]] on a host collection *)
Definition item_of {A} (x : option A) (key : string) : M A :=
  match x with
  | Some a => ret a
  | None => raise (KeyError key)
  end.

Definition index_of {A} (x : option A) (i : nat) : M A :=
  match x with
  | Some a => ret a
  | None => raise (IndexError i)
  end.

(** [purge_orphans], lines 15-30.  The recursion of the source is bounded
    by [fuel]. *)
Fixpoint purge_orphans (fuel : nat) : M unit :=
  match fuel with
  | O => out_of_fuel
  | S fuel' =>
      version <- read app_version ;;
      if tuple_ge version (3, 0, 0)%Z
      then
        op (ops_outliner_orphans_purge
              [("do_local_ids", true); ("do_linked_ids", true); ("do_recursive", true)]) ;;
        ret tt
      else
        result <- op (ops_outliner_orphans_purge []) ;;
        if negb (String.eqb result "CANCELLED")
        then purge_orphans fuel'
        else ret tt
  end.

(** [clean_scene] up to, and without, its last statement (lines 43-69). *)
Definition clean_scene_body : M unit :=
  a <- read context_active_object ;;
  (match a with
   | None => ret tt
   | Some _ =>
       a' <- read context_active_object ;;
       o <- attr_of a' "mode" ;;
       mode <- read (obj_mode o) ;;
       if String.eqb mode "EDIT"
       then op ops_object_editmode_toggle ;; ret tt
       else ret tt
   end) ;;
  objs <- read data_objects ;;
  for_each objs (fun o =>
    op (obj_hide_set o false) ;;
    op (set_obj_hide_select o false) ;;
    op (set_obj_hide_viewport o false)) ;;
  op (ops_object_select_all "SELECT") ;;
  op ops_object_delete ;;
  collection_names <- read data_collection_names ;;
  for_each collection_names (fun name =>
    c <- read (data_collections_get name) ;;
    c <- item_of c name ;;
    op (data_collections_remove c)) ;;
  world_names <- read data_world_names ;;
  for_each world_names (fun name =>
    w <- read (data_worlds_get name) ;;
    w <- item_of w name ;;
    op (data_worlds_remove w)) ;;
  op ops_world_new ;;
  w <- read (data_worlds_get "World") ;;
  w <- item_of w "World" ;;
  op (set_scene_world w).

(** [clean_scene], lines 33-71 *)
Definition clean_scene (fuel : nat) : M unit :=
  clean_scene_body ;;
  purge_orphans fuel.

(** [active_object], lines 74-78 *)
Definition active_object : M (option obj) :=
  read context_active_object.

(** [time_seed], lines 81-93 *)
Definition time_seed : M pyval :=
  seed <- op time_time ;;
  op (py_print ("seed: " ++ py_str seed)%string) ;;
  op (random_seed seed) ;;
  op (set_clipboard (py_str seed)) ;;
  ret seed.

(** [set_fcurve_extrapolation_to_linear], lines 96-98 *)
Definition set_fcurve_extrapolation_to_linear : M unit :=
  a <- read context_active_object ;;
  o <- attr_of a "animation_data" ;;
  ad <- read (obj_animation_data o) ;;
  ad <- attr_of ad "action" ;;
  act <- read (anim_action ad) ;;
  act <- attr_of act "fcurves" ;;
  fcs <- read (action_fcurves act) ;;
  for_each fcs (fun fc => op (set_fcurve_extrapolation fc "LINEAR")).

(** [create_data_animation_loop], lines 101-126 *)
Definition create_data_animation_loop (o : obj) (data_path : string)
    (start_value mid_value : pyval) (start_frame loop_length : Q)
    (linear_extrapolation : bool) : M unit :=
  op (py_setattr o data_path start_value) ;;
  op (keyframe_insert o data_path start_frame) ;;
  op (py_setattr o data_path mid_value) ;;
  let mid_frame := (start_frame + loop_length / 2)%Q in
  op (keyframe_insert o data_path mid_frame) ;;
  op (py_setattr o data_path start_value) ;;
  let end_frame := (start_frame + loop_length)%Q in
  op (keyframe_insert o data_path end_frame) ;;
  if linear_extrapolation
  then set_fcurve_extrapolation_to_linear
  else ret tt.

(** [set_scene_props], lines 129-144 *)
Definition set_scene_props (fps frame_count : Z) : M unit :=
  op (set_scene_frame_end frame_count) ;;
  w <- read (data_worlds_get "World") ;;
  w <- item_of w "World" ;;
  nt <- read (world_node_tree w) ;;
  nt <- attr_of nt "nodes" ;;
  has_background <- read (nodes_contains nt "Background") ;;
  (if (has_background : bool)
   then
     n <- read (nodes_get nt "Background") ;;
     n <- item_of n "Background" ;;
     s <- read (node_inputs_at n 0) ;;
     s <- index_of s 0 ;;
     op (set_socket_default_value s
           (PTuple [PInt 0; PInt 0; PInt 0; PInt 1]))
   else ret tt) ;;
  op (set_scene_render_fps fps) ;;
  op (set_scene_frame_current 1) ;;
  op (set_scene_frame_start 1).

(** [scene_setup], lines 147-160 *)
Definition scene_setup (fuel : nat) : M unit :=
  let fps := 30%Z in
  let loop_seconds := 12%Z in
  let frame_count := (fps * loop_seconds)%Z in
  let seed := PInt 0 in
  (if truthy seed
   then op (random_seed seed)
   else time_seed ;; ret tt) ;;
  clean_scene fuel ;;
  set_scene_props fps frame_count.

(** [create_node], lines 162-164 *)
Definition create_node (node_tree : ntree) (type_name : string) : M node :=
  node_obj <- op (nodes_new node_tree type_name) ;;
  ret node_obj.

(** [create_link], lines 178-189 *)
Definition create_link (node_tree : ntree) (from_node : node)
    (output_socket_name : string) (to_node : node)
    (input_socket_name : string) : M unit :=
  a <- read (node_outputs_get from_node output_socket_name) ;;
  a <- item_of a output_socket_name ;;
  b <- read (node_inputs_get to_node input_socket_name) ;;
  b <- item_of b input_socket_name ;;
  op (links_new node_tree a b) ;;
  ret tt.

(** [create_mesh], lines 220-235 *)
Definition create_mesh (mesh_type : string) (location : pyval) : M (option obj) :=
  (if String.eqb mesh_type "PLANE"
   then op (ops_mesh_primitive_plane_add location) ;; ret tt
   else if String.eqb mesh_type "CUBE"
   then op (ops_mesh_primitive_cube_add location) ;; ret tt
   else if String.eqb mesh_type "SPHERE"
   then op (ops_mesh_primitive_uv_sphere_add location) ;; ret tt
   else ret tt) ;;
  active_object.

(** [bpy.name], an attribute of the module [bpy] *)
Definition bpy_getattr (name : string) : M (pyval -> pyval) :=
  f <- read (bpy_attr name) ;;
  match f with
  | Some f => ret f
  | None => raise (AttributeError "bpy" name)
  end.

(** [move_object], lines 242-250: [obj.location += bpy.Vector(v)] reads
    [obj.location], evaluates the right-hand side, and stores the sum. *)
Definition move_object (o : obj) (translation_vector : pyval) : M unit :=
  loc <- read (obj_location o) ;;
  Vector <- bpy_getattr "Vector" ;;
  op (set_obj_location o (py_add loc (Vector translation_vector))).

(** [scale_object], lines 256-264 *)
Definition scale_object (o : obj) (scale_factor : pyval) : M unit :=
  sc <- read (obj_scale o) ;;
  Vector <- bpy_getattr "Vector" ;;
  op (set_obj_scale o (py_mul sc (Vector scale_factor))).

(** [create_centerpiece], lines 475-476 *)
Definition create_centerpiece : M unit :=
  ret tt.

(** [main], lines 483-489 *)
Definition main (fuel : nat) : M unit :=
  scene_setup fuel ;;
  create_centerpiece.

End Script_functions.

(** ** What a call log says *)

Section Log.

Context {H : Host}.


(** The calls of [scene_setup]: runtime, scene cleanup and scene properties.
    Calls that create meshes, modifiers, nodes or links, that move or scale
    objects, or that set and keyframe properties are not among them. *)
Definition setup_call (l : logged) : bool :=
  match l with
  | Logged c =>
      match c with
      | ops_mesh_primitive_plane_add _
      | ops_mesh_primitive_cube_add _
      | ops_mesh_primitive_uv_sphere_add _
      | ops_node_new_geometry_nodes_modifier
      | set_obj_location _ _
      | set_obj_scale _ _
      | py_setattr _ _ _
      | keyframe_insert _ _ _
      | set_fcurve_extrapolation _ _
      | nodes_new _ _
      | links_new _ _ _ => false
      | _ => true
      end
  end.

(** The keyword arguments of the purge call for versions 3.0 and higher. *)
Definition purge_kw : list (string * bool) :=
  [("do_local_ids", true); ("do_linked_ids", true); ("do_recursive", true)].

(** [m] only performs calls that satisfy [P]. *)
Definition emits (P : logged -> bool) {A} (m : M A) : Prop :=
  forall s, exists d, calls (snd (m s)) = calls s ++ d /\ forallb P d = true.

(** The six calls of [create_data_animation_loop] that set and keyframe the
    property. *)
Definition loop_calls (o : obj) (data_path : string) (start_value mid_value : pyval)
    (start_frame loop_length : Q) : list logged :=
  [Logged (py_setattr o data_path start_value);
   Logged (keyframe_insert o data_path start_frame);
   Logged (py_setattr o data_path mid_value);
   Logged (keyframe_insert o data_path (start_frame + loop_length / 2)%Q);
   Logged (py_setattr o data_path start_value);
   Logged (keyframe_insert o data_path (start_frame + loop_length)%Q)].

(** The f-curves of the active object's action,
    [bpy.context.active_object.animation_data.action.fcurves], when every
    link of that chain exists. *)
Definition active_fcurves (w : world) : option (list fcurve) :=
  match observe context_active_object w with
  | None => None
  | Some o =>
      match observe (obj_animation_data o) w with
      | None => None
      | Some ad =>
          match observe (anim_action ad) w with
          | None => None
          | Some act => Some (observe (action_fcurves act) w)
          end
      end
  end.

(** Some object of the scene carries a Geometry Nodes modifier. *)
Definition has_geometry_nodes (w : world) : Prop :=
  exists o, In o (observe data_objects w)
            /\ In "GeometryNodes" (observe (obj_modifiers o) w).

End Log.

(** ** A reference host

    The host is not part of the repository.  This small executable host
    stands in for it wherever a run on a concrete scene is wanted.  It keeps
    what the script can observe: the objects with their flags and
    attributes, keyframes and f-curves, the collections, the worlds, a count
    of orphan data blocks, node trees, and the state of the Python runtime.
    The statements about the script below hold for every host; this one
    shows that their assumptions can be met. *)

Module Mini.

Record scene : Type := mkScene {
  objects : list obj;
  active : option obj;
  flag : obj -> string -> bool;
  attr : obj -> string -> option pyval;
  modifiers : obj -> list string
}.

Record blend : Type := mkBlend {
  collections : list string;
  worlds : list string;
  world_trees : list (wrld * ntree);
  world_in_use : option string;
  orphans : nat;
  keys : list (obj * string * Q * pyval);
  fcurves : list (obj * string * string);
  nodes : list (ntree * string);
  sockets : list (node * bool * string);
  links : list (ntree * socket * socket);
  socket_values : list (socket * pyval)
}.

Record runtime : Type := mkRuntime {
  clock : Q;
  seed : pyval;
  stdout : list string;
  clipboard : string;
  scene_props : list (string * Z)
}.

Record state : Type := mkState {
  version : Z * Z * Z;
  sc : scene;
  bl : blend;
  rt : runtime
}.

Definition with_sc (w : state) (x : scene) : state :=
  mkState (version w) x (bl w) (rt w).
Definition with_bl (w : state) (x : blend) : state :=
  mkState (version w) (sc w) x (rt w).
Definition with_rt (w : state) (x : runtime) : state :=
  mkState (version w) (sc w) (bl w) x.

Definition mem (x : string) (l : list string) : bool :=
  existsb (String.eqb x) l.

Definition has_obj (w : state) (o : obj) : bool :=
  existsb (Nat.eqb o) (objects (sc w)).

Definition set_flag (w : state) (o : obj) (name : string) (b : bool) : state :=
  let s := sc w in
  with_sc w (mkScene (objects s) (active s)
    (fun o' n => if Nat.eqb o' o && String.eqb n name then b else flag s o' n)
    (attr s) (modifiers s)).

Definition set_attr (w : state) (o : obj) (name : string) (v : pyval) : state :=
  let s := sc w in
  with_sc w (mkScene (objects s) (active s) (flag s)
    (fun o' n => if Nat.eqb o' o && String.eqb n name then Some v else attr s o' n)
    (modifiers s)).

Definition get_active (w : state) : option obj :=
  match active (sc w) with
  | Some o => if has_obj w o then Some o else None
  | None => None
  end.

Definition mode_of (w : state) (o : obj) : string :=
  match attr (sc w) o "mode" with
  | Some (PStr m) => m
  | _ => "OBJECT"
  end.

Definition selectable (w : state) (o : obj) : bool :=
  negb (flag (sc w) o "hide") && negb (flag (sc w) o "hide_select")
  && negb (flag (sc w) o "hide_viewport").

Definition value_or_none (v : option pyval) : pyval :=
  match v with Some x => x | None => PNone end.

(** Indices of the entries of [l] that satisfy [p], counted from [i]. *)
Fixpoint indices {A} (p : A -> bool) (l : list A) (i : nat) : list nat :=
  match l with
  | [] => []
  | x :: rest => if p x then i :: indices p rest (S i) else indices p rest (S i)
  end.

Definition first_index {A} (p : A -> bool) (l : list A) : option nat :=
  hd_error (indices p l 0).

Definition unused_worlds (b : blend) : list string :=
  filter (fun n => match world_in_use b with
                   | Some u => negb (String.eqb n u)
                   | None => true
                   end) (worlds b).

Definition used_worlds (b : blend) : list string :=
  filter (fun n => match world_in_use b with
                   | Some u => String.eqb n u
                   | None => false
                   end) (worlds b).

Definition count_orphans (w : state) : nat :=
  orphans (bl w) + List.length (unused_worlds (bl w)).

Definition kw_get (kw : list (string * bool)) (name : string) : bool :=
  match find (fun p => String.eqb (fst p) name) kw with
  | Some p => snd p
  | None => false
  end.

(** One purge: the unused worlds go; a recursive purge takes all orphan
    data blocks, a plain one a single layer of them. *)
Definition purge (w : state) (recursive : bool) : state :=
  let b := bl w in
  with_bl w (mkBlend (collections b) (used_worlds b) (world_trees b) (world_in_use b)
    (if recursive then 0 else pred (orphans b))
    (keys b) (fcurves b) (nodes b) (sockets b) (links b) (socket_values b)).

Definition add_object (w : state) (location : pyval) : state :=
  let s := sc w in
  let o := S (fold_right Nat.max 0 (objects s)) in
  let sel := fun o' n => if String.eqb n "select" then Nat.eqb o' o else flag s o' n in
  set_attr (with_sc w (mkScene (objects s ++ [o]) (Some o) sel (attr s) (modifiers s)))
    o "location" location.

Definition str_of (v : pyval) : string :=
  match v with
  | PNone => "None"
  | PBool true => "True"
  | PBool false => "False"
  | PInt z => NilZero.string_of_int (Z.to_int z)
  | PFloat q =>
      (NilZero.string_of_int (Z.to_int (Qnum q)) ++ "/"
       ++ NilZero.string_of_uint (Pos.to_uint (Qden q)))%string
  | PStr s => s
  | PTuple _ => "(...)"
  end.

Definition observe (R : Type) (q : Read R) (w : state) : R :=
  match q in Read R return R with
  | app_version => version w
  | context_active_object => get_active w
  | obj_mode o => mode_of w o
  | obj_hide_get o => flag (sc w) o "hide"
  | obj_hide_select o => flag (sc w) o "hide_select"
  | obj_hide_viewport o => flag (sc w) o "hide_viewport"
  | obj_select_get o => flag (sc w) o "select"
  | obj_location o => value_or_none (attr (sc w) o "location")
  | obj_scale o => value_or_none (attr (sc w) o "scale")
  | obj_modifiers o => modifiers (sc w) o
  | obj_animation_data o =>
      if existsb (fun f => Nat.eqb (fst (fst f)) o) (fcurves (bl w))
      then Some o else None
  | anim_action a => Some a
  | action_fcurves a =>
      indices (fun f => Nat.eqb (fst (fst f)) a) (fcurves (bl w)) 0
  | fcurve_extrapolation fc =>
      match nth_error (fcurves (bl w)) fc with
      | Some f => snd f
      | None => "CONSTANT"
      end
  | data_objects => objects (sc w)
  | data_collection_names => collections (bl w)
  | data_collections_get name =>
      if mem name (collections (bl w)) then Some name else None
  | data_world_names => worlds (bl w)
  | data_worlds_get name =>
      if mem name (worlds (bl w)) then Some name else None
  | scene_world => world_in_use (bl w)
  | world_node_tree wd =>
      match find (fun t => String.eqb (fst t) wd) (world_trees (bl w)) with
      | Some t => Some (snd t)
      | None => None
      end
  | nodes_contains nt name =>
      existsb (fun n => Nat.eqb (fst n) nt && String.eqb (snd n) name)
        (nodes (bl w))
  | nodes_get nt name =>
      first_index (fun n => Nat.eqb (fst n) nt && String.eqb (snd n) name)
        (nodes (bl w))
  | node_inputs_at n i =>
      nth_error (indices (fun s => Nat.eqb (fst (fst s)) n && negb (snd (fst s)))
                   (sockets (bl w)) 0) i
  | node_inputs_get n name =>
      first_index (fun s => Nat.eqb (fst (fst s)) n && negb (snd (fst s))
                            && String.eqb (snd s) name) (sockets (bl w))
  | node_outputs_get n name =>
      first_index (fun s => Nat.eqb (fst (fst s)) n && snd (fst s)
                            && String.eqb (snd s) name) (sockets (bl w))
  | bpy_attr name => None
  | orphan_count => count_orphans w
  end.

Definition upd_blend (w : state)
    (f : blend -> blend) : state := with_bl w (f (bl w)).

Definition put_collections (x : list string) (b : blend) : blend :=
  mkBlend x (worlds b) (world_trees b) (world_in_use b) (orphans b)
    (keys b) (fcurves b) (nodes b) (sockets b) (links b) (socket_values b).

Definition put_worlds (x : list string) (t : list (wrld * ntree))
    (u : option string) (b : blend) : blend :=
  mkBlend (collections b) x t u (orphans b)
    (keys b) (fcurves b) (nodes b) (sockets b) (links b) (socket_values b).

Definition put_orphans (x : nat) (b : blend) : blend :=
  mkBlend (collections b) (worlds b) (world_trees b) (world_in_use b) x
    (keys b) (fcurves b) (nodes b) (sockets b) (links b) (socket_values b).

Definition put_anim (k : list (obj * string * Q * pyval))
    (f : list (obj * string * string)) (b : blend) : blend :=
  mkBlend (collections b) (worlds b) (world_trees b) (world_in_use b)
    (orphans b) k f (nodes b) (sockets b) (links b) (socket_values b).

Definition put_nodes (n : list (ntree * string))
    (s : list (node * bool * string)) (b : blend) : blend :=
  mkBlend (collections b) (worlds b) (world_trees b) (world_in_use b)
    (orphans b) (keys b) (fcurves b) n s (links b) (socket_values b).

Definition put_links (l : list (ntree * socket * socket))
    (v : list (socket * pyval)) (b : blend) : blend :=
  mkBlend (collections b) (worlds b) (world_trees b) (world_in_use b)
    (orphans b) (keys b) (fcurves b) (nodes b) (sockets b) l v.

Definition fresh_tree (b : blend) : ntree :=
  S (fold_right Nat.max 0 (map fst (nodes b) ++ map snd (world_trees b))).

Definition fresh_world_name (b : blend) : string :=
  if mem "World" (worlds b) then
    if mem "World.001" (worlds b) then "World.002" else "World.001"
  else "World".

Definition new_world (w : state) : state :=
  let b := bl w in
  let name := fresh_world_name b in
  let nt := fresh_tree b in
  let n := List.length (nodes b) in
  upd_blend w (fun b =>
    put_nodes (nodes b ++ [(nt, "Background"); (nt, "World Output")])
      (sockets b ++ [(n, false, "Color"); (n, false, "Strength");
                     (n, true, "Background"); (S n, false, "Surface")])
      (put_worlds (worlds b ++ [name]) ((name, nt) :: world_trees b)
         (world_in_use b) b)).

Definition same_key (o : obj) (path : string) (frame : Q)
    (k : obj * string * Q * pyval) : bool :=
  let '(o', p', f', _) := k in
  Nat.eqb o' o && String.eqb p' path && Qeq_bool f' frame.

Definition same_curve (o : obj) (path : string)
    (f : obj * string * string) : bool :=
  Nat.eqb (fst (fst f)) o && String.eqb (snd (fst f)) path.

Definition insert_key (w : state) (o : obj) (path : string) (frame : Q)
    (v : pyval) : state :=
  upd_blend w (fun b =>
    put_anim (filter (fun k => negb (same_key o path frame k)) (keys b)
              ++ [(o, path, frame, v)])
      (if existsb (same_curve o path) (fcurves b) then fcurves b
       else fcurves b ++ [(o, path, "CONSTANT")])
      b).

Fixpoint set_nth {A} (l : list A) (i : nat) (f : A -> A) : list A :=
  match l, i with
  | [], _ => []
  | x :: rest, O => f x :: rest
  | x :: rest, S i' => x :: set_nth rest i' f
  end.

Definition put_runtime (w : state) (c : Q) (sd : pyval) (out : list string)
    (cb : string) (p : list (string * Z)) : state :=
  with_rt w (mkRuntime c sd out cb p).

Definition set_scene_prop (w : state) (name : string) (n : Z) : state :=
  let r := rt w in
  put_runtime w (clock r) (seed r) (stdout r) (clipboard r)
    ((name, n) :: scene_props r).

Definition stale (what : string) : exn :=
  RuntimeError (what ++ " has been removed")%string.

Definition perform (R : Type) (c : Op R) (w : state) : (exn + R) * state :=
  match c in Op R return (exn + R) * state with
  | ops_outliner_orphans_purge kw =>
      if Nat.eqb (count_orphans w) 0 then (inr "CANCELLED", w)
      else (inr "FINISHED", purge w (kw_get kw "do_recursive"))
  | ops_object_editmode_toggle =>
      match get_active w with
      | None => (inl (RuntimeError "context is incorrect"), w)
      | Some o =>
          (inr "FINISHED",
           set_attr w o "mode"
             (PStr (if String.eqb (mode_of w o) "EDIT" then "OBJECT" else "EDIT")))
      end
  | ops_object_select_all action =>
      let s := sc w in
      if String.eqb action "SELECT" then
        (inr "FINISHED",
         with_sc w (mkScene (objects s) (active s)
           (fun o n => if String.eqb n "select" && has_obj w o && selectable w o
                       then true else flag s o n)
           (attr s) (modifiers s)))
      else if String.eqb action "DESELECT" then
        (inr "FINISHED",
         with_sc w (mkScene (objects s) (active s)
           (fun o n => if String.eqb n "select" then false else flag s o n)
           (attr s) (modifiers s)))
      else (inl (TypeError "enum not found"), w)
  | ops_object_delete =>
      let s := sc w in
      let kept := filter (fun o => negb (flag s o "select")) (objects s) in
      let gone := List.length (objects s) - List.length kept in
      (inr (if Nat.eqb gone 0 then "CANCELLED" else "FINISHED"),
       upd_blend (with_sc w (mkScene kept (active s) (flag s) (attr s) (modifiers s)))
         (fun b => put_orphans (orphans b + gone) b))
  | ops_world_new => (inr "FINISHED", new_world w)
  | ops_mesh_primitive_plane_add location => (inr "FINISHED", add_object w location)
  | ops_mesh_primitive_cube_add location => (inr "FINISHED", add_object w location)
  | ops_mesh_primitive_uv_sphere_add location => (inr "FINISHED", add_object w location)
  | ops_node_new_geometry_nodes_modifier =>
      match get_active w with
      | None => (inl (RuntimeError "context is incorrect"), w)
      | Some o =>
          let s := sc w in
          let nt := fresh_tree (bl w) in
          (inr "FINISHED",
           upd_blend
             (with_sc w (mkScene (objects s) (active s) (flag s) (attr s)
                (fun o' => if Nat.eqb o' o then modifiers s o' ++ ["GeometryNodes"]
                           else modifiers s o')))
             (fun b => put_nodes (nodes b ++ [(nt, "Group Input"); (nt, "Group Output")])
                         (sockets b) b))
      end
  | obj_hide_set o b =>
      if has_obj w o then (inr tt, set_flag w o "hide" b) else (inl (stale "object"), w)
  | set_obj_hide_select o b =>
      if has_obj w o then (inr tt, set_flag w o "hide_select" b)
      else (inl (stale "object"), w)
  | set_obj_hide_viewport o b =>
      if has_obj w o then (inr tt, set_flag w o "hide_viewport" b)
      else (inl (stale "object"), w)
  | set_obj_location o v =>
      if has_obj w o then (inr tt, set_attr w o "location" v)
      else (inl (stale "object"), w)
  | set_obj_scale o v =>
      if has_obj w o then (inr tt, set_attr w o "scale" v)
      else (inl (stale "object"), w)
  | py_setattr o data_path v =>
      match attr (sc w) o data_path with
      | Some _ => (inr tt, set_attr w o data_path v)
      | None => (inl (AttributeError "Object" data_path), w)
      end
  | keyframe_insert o data_path frame =>
      match attr (sc w) o data_path with
      | Some v => (inr true, insert_key w o data_path frame v)
      | None => (inl (TypeError "property not found"), w)
      end
  | set_fcurve_extrapolation fc v =>
      if Nat.ltb fc (List.length (fcurves (bl w))) then
        (inr tt,
         upd_blend w (fun b =>
           put_anim (keys b)
             (set_nth (fcurves b) fc (fun f => (fst f, v))) b))
      else (inl (stale "f-curve"), w)
  | data_collections_remove c =>
      if mem c (collections (bl w)) then
        (inr tt,
         upd_blend w (fun b =>
           put_collections (remove string_dec c (collections b)) b))
      else (inl (stale "collection"), w)
  | data_worlds_remove wd =>
      if mem wd (worlds (bl w)) then
        (inr tt,
         upd_blend w (fun b =>
           put_worlds (remove string_dec wd (worlds b))
             (filter (fun t => negb (String.eqb (fst t) wd)) (world_trees b))
             (match world_in_use b with
              | Some u => if String.eqb u wd then None else Some u
              | None => None
              end) b))
      else (inl (stale "world"), w)
  | set_scene_world wd =>
      if mem wd (worlds (bl w)) then
        (inr tt,
         upd_blend w (fun b => put_worlds (worlds b) (world_trees b) (Some wd) b))
      else (inl (stale "world"), w)
  | set_scene_frame_end n => (inr tt, set_scene_prop w "frame_end" n)
  | set_scene_render_fps n => (inr tt, set_scene_prop w "render.fps" n)
  | set_scene_frame_current n => (inr tt, set_scene_prop w "frame_current" n)
  | set_scene_frame_start n => (inr tt, set_scene_prop w "frame_start" n)
  | set_socket_default_value s v =>
      (inr tt, upd_blend w (fun b => put_links (links b) ((s, v) :: socket_values b) b))
  | nodes_new nt type =>
      (inr (List.length (nodes (bl w))),
       upd_blend w (fun b => put_nodes (nodes b ++ [(nt, type)]) (sockets b) b))
  | links_new nt from_socket to_socket =>
      let kept := filter (fun l => negb (Nat.eqb (snd l) to_socket)) (links (bl w)) in
      (inr (List.length kept),
       upd_blend w (fun b =>
         put_links (kept ++ [(nt, from_socket, to_socket)]) (socket_values b) b))
  | time_time =>
      let r := rt w in
      (inr (PFloat (clock r)),
       put_runtime w (clock r + 1)%Q (seed r) (stdout r) (clipboard r) (scene_props r))
  | py_print line =>
      let r := rt w in
      (inr tt,
       put_runtime w (clock r) (seed r) (stdout r ++ [line]) (clipboard r) (scene_props r))
  | random_seed v =>
      let r := rt w in
      (inr tt, put_runtime w (clock r) v (stdout r) (clipboard r) (scene_props r))
  | set_clipboard s =>
      let r := rt w in
      (inr tt, put_runtime w (clock r) (seed r) (stdout r) s (scene_props r))
  end.

(** The scene of a freshly started host: a cube (1), a light (2) and a
    camera (3) in one collection, and the world "World" with its node tree. *)
Definition startup (v : Z * Z * Z) : state :=
  mkState v
    (mkScene [1; 2; 3] (Some 1)
       (fun _ _ => false)
       (fun _ n =>
          if String.eqb n "location" then Some (PTuple [PInt 0; PInt 0; PInt 0])
          else if String.eqb n "scale" then Some (PTuple [PInt 1; PInt 1; PInt 1])
          else if String.eqb n "mode" then Some (PStr "OBJECT")
          else None)
       (fun _ => []))
    (mkBlend ["Collection"] ["World"] [("World", 1)] (Some "World") 0
       [] []
       [(1, "Background"); (1, "World Output")]
       [(0, false, "Color"); (0, false, "Strength"); (0, true, "Background");
        (1, false, "Surface")]
       [(1, 2, 3)] [])
    (mkRuntime (1700000000 # 1) PNone [] "" []).

(** Vector arithmetic on tuples, component by component. *)
Definition num_op (f : Q -> Q -> Q) (a b : pyval) : pyval :=
  match a, b with
  | PInt x, PInt y => PFloat (f (inject_Z x) (inject_Z y))
  | PInt x, PFloat y => PFloat (f (inject_Z x) y)
  | PFloat x, PInt y => PFloat (f x (inject_Z y))
  | PFloat x, PFloat y => PFloat (f x y)
  | _, _ => PNone
  end.

Fixpoint zip_with (f : pyval -> pyval -> pyval) (a b : list pyval) : list pyval :=
  match a, b with
  | x :: a', y :: b' => f x y :: zip_with f a' b'
  | _, _ => []
  end.

Definition vec_op (f : Q -> Q -> Q) (a b : pyval) : pyval :=
  match a, b with
  | PTuple x, PTuple y => PTuple (zip_with (num_op f) x y)
  | _, _ => PNone
  end.

End Mini.

Definition mini_host : Host := {|
  world := Mini.state;
  observe := Mini.observe;
  perform := Mini.perform;
  py_str := Mini.str_of;
  py_add := Mini.vec_op Qplus;
  py_mul := Mini.vec_op Qmult
|}.

(** ** The host behaviour [clean_scene] relies on *)

Section Contract.

Context {H : Host}.

Definition objs (w : world) : list obj := observe data_objects w.

(** Visible in the viewport and selectable: none of the three flags that
    [clean_scene] clears is set. *)
Definition selectable (w : world) (o : obj) : bool :=
  negb (observe (obj_hide_get o) w)
  && negb (observe (obj_hide_select o) w)
  && negb (observe (obj_hide_viewport o) w).

(** The call [c] returns normally from [w] and leaves [w']. *)
Definition returns {R} (c : Op R) (w w' : world) : Prop :=
  exists r, perform c w = (inr r, w').

(** The calls [clean_scene] makes once the objects are deleted. *)
Definition data_call {R} (c : Op R) : bool :=
  match c with
  | data_collections_remove _
  | data_worlds_remove _
  | ops_world_new
  | set_scene_world _
  | ops_outliner_orphans_purge _ => true
  | _ => false
  end.

Record cleanup_contract : Prop := {
  (** the active object is one of the objects *)
  active_is_object :
    forall w o, observe context_active_object w = Some o -> In o (objs w);
  (** a write to a visibility flag sets that flag of that object and leaves
      the objects and every other flag alone *)
  hide_set_spec :
    forall o b w w', returns (obj_hide_set o b) w w' ->
      objs w' = objs w
      /\ observe (obj_hide_get o) w' = b
      /\ (forall o', o' <> o ->
            observe (obj_hide_get o') w' = observe (obj_hide_get o') w)
      /\ (forall o', observe (obj_hide_select o') w' = observe (obj_hide_select o') w)
      /\ (forall o', observe (obj_hide_viewport o') w' = observe (obj_hide_viewport o') w);
  hide_select_spec :
    forall o b w w', returns (set_obj_hide_select o b) w w' ->
      objs w' = objs w
      /\ observe (obj_hide_select o) w' = b
      /\ (forall o', o' <> o ->
            observe (obj_hide_select o') w' = observe (obj_hide_select o') w)
      /\ (forall o', observe (obj_hide_get o') w' = observe (obj_hide_get o') w)
      /\ (forall o', observe (obj_hide_viewport o') w' = observe (obj_hide_viewport o') w);
  hide_viewport_spec :
    forall o b w w', returns (set_obj_hide_viewport o b) w w' ->
      objs w' = objs w
      /\ observe (obj_hide_viewport o) w' = b
      /\ (forall o', o' <> o ->
            observe (obj_hide_viewport o') w' = observe (obj_hide_viewport o') w)
      /\ (forall o', observe (obj_hide_get o') w' = observe (obj_hide_get o') w)
      /\ (forall o', observe (obj_hide_select o') w' = observe (obj_hide_select o') w);
  (** select-all selects every object that is visible and selectable *)
  select_all_spec :
    forall w w', returns (ops_object_select_all "SELECT") w w' ->
      objs w' = objs w
      /\ (forall o, In o (objs w) -> selectable w o = true ->
            observe (obj_select_get o) w' = true);
  (** delete removes the selected objects: what is left was there before and
      was not selected *)
  delete_spec :
    forall w w', returns ops_object_delete w w' ->
      forall o, In o (objs w') ->
        In o (objs w) /\ observe (obj_select_get o) w = false;
  (** the later calls create no object and no collection *)
  no_new_objects :
    forall R (c : Op R) w w', data_call c = true -> returns c w w' ->
      incl (objs w') (objs w);
  no_new_collections :
    forall R (c : Op R) w w', data_call c = true -> returns c w w' ->
      incl (observe data_collection_names w') (observe data_collection_names w);
  (** collections and worlds are found under their name, and removing one
      removes its name *)
  collections_get_spec :
    forall name w c, observe (data_collections_get name) w = Some c -> c = name;
  collections_remove_spec :
    forall c w w', returns (data_collections_remove c) w w' ->
      observe data_collection_names w'
      = remove string_dec c (observe data_collection_names w);
  worlds_get_spec :
    forall name w x, observe (data_worlds_get name) w = Some x -> x = name;
  worlds_remove_spec :
    forall x w w', returns (data_worlds_remove x) w w' ->
      observe data_world_names w'
      = remove string_dec x (observe data_world_names w);
  (** a new world is called "World" when that name is free *)
  world_new_spec :
    forall w w', returns ops_world_new w w' ->
      ~ In "World" (observe data_world_names w) ->
      observe data_world_names w' = observe data_world_names w ++ ["World"];
  set_scene_world_spec :
    forall x w w', returns (set_scene_world x) w w' ->
      observe data_world_names w' = observe data_world_names w
      /\ observe scene_world w' = Some x;
  (** a purge creates no world, keeps the world of the scene, and leaves the
      scene's choice of world alone *)
  purge_spec :
    forall kw w w', returns (ops_outliner_orphans_purge kw) w w' ->
      observe scene_world w' = observe scene_world w
      /\ (exists keep,
            observe data_world_names w' = filter keep (observe data_world_names w))
      /\ (forall x, observe scene_world w = Some x ->
            In x (observe data_world_names w) ->
            In x (observe data_world_names w'))
}.

(** No object and no collection. *)
Definition emptied (w : world) : Prop :=
  objs w = [] /\ observe data_collection_names w = [].

(** What [clean_scene] leaves behind. *)
Definition cleaned (w : world) : Prop :=
  objs w = []
  /\ observe data_collection_names w = []
  /\ observe data_world_names w = ["World"]
  /\ observe scene_world w = Some "World".

End Contract.

(** Runs on the reference host start here. *)
Definition start_state (v : Z * Z * Z) : @St mini_host :=
  @mkSt mini_host (Mini.startup v) [].


(** Concrete runs on the reference host. *)

Definition zero3 : pyval := PTuple [PInt 0; PInt 0; PInt 0].

Definition up2 : pyval := PTuple [PInt 0; PInt 0; PInt 2].


(** [clean_scene] on the startup scene of a host older than 3.0. *)
Definition clean_run : result unit * @St mini_host :=
  @clean_scene mini_host 5 (start_state (2, 83, 0)%Z).

(** [main] on the startup scene. *)
Definition main_run : result unit * @St mini_host :=
  @main mini_host 2 (start_state (3, 6, 0)%Z).

(** A state that holds three layers of orphan data blocks. *)
Definition orphaned_state (v : Z * Z * Z) : @St mini_host :=
  let w := Mini.startup v in
  @mkSt mini_host (Mini.upd_blend w (Mini.put_orphans 3)) [].


(** ** The rest of the host interface

    The helpers of the script that no statement above is about use more of
    the host: node positions and selection, the nodes of a tree, the
    modifiers of an object, mode changes, and the windows of the interface.
    These reads and calls extend the host; their calls are logged together
    with the calls above, in the order they are made. *)

Definition modifier := nat.
Definition area := nat.
Definition space := nat.

Inductive ReadX : Type -> Type :=
| node_location_x (n : node) : ReadX Q
| node_location_y (n : node) : ReadX Q
| node_select_get (n : node) : ReadX bool
| node_input_names (n : node) : ReadX (list string)
| node_output_names (n : node) : ReadX (list string)
| tree_nodes (nt : ntree) : ReadX (list node)
| tree_active_node (nt : ntree) : ReadX (option node)
| obj_modifiers_get (o : obj) (name : string) : ReadX (option modifier)
| modifier_node_group (m : modifier) : ReadX (option ntree)
| context_mode : ReadX string
| context_space_data : ReadX (option space)
| screen_name : ReadX string
| screen_areas : ReadX (list area)
| area_type (a : area) : ReadX string
| area_spaces_at (a : area) (i : nat) : ReadX (option space)
| space_shading_type (sp : space) : ReadX string.

Inductive OpX : Type -> Type :=
| set_node_location_x (n : node) (v : Q) : OpX unit
| set_node_location_y (n : node) (v : Q) : OpX unit
| set_node_select (n : node) (b : bool) : OpX unit
| set_tree_active_node (nt : ntree) (n : node) : OpX unit
| nodes_remove (nt : ntree) (n : node) : OpX unit
| set_view_layer_active (o : obj) : OpX unit
| obj_select_set (o : obj) (b : bool) : OpX unit
| set_space_node_tree (sp : space) (nt : ntree) : OpX unit
| set_space_shading_type (sp : space) (v : string) : OpX unit
| ops_object_mode_set (mode : string) : OpX string
| ops_mesh_select_mode (type : string) : OpX string
| ops_object_duplicate_move : OpX string
| ops_node_duplicate : OpX string.

Class HostX (H : Host) : Type := {
  observe_x : forall R, ReadX R -> world -> R;
  perform_x : forall R, OpX R -> world -> (exn + R) * world
}.

Arguments observe_x {_ _} {R} _ _.
Arguments perform_x {_ _} {R} _ _.

(** An entry of the log of all calls. *)
Inductive call : Type :=
| Base (l : logged)
| Ext {R : Type} (c : OpX R).

Section ScriptX.

Context {H : Host} {HX : HostX H}.

Record StX : Type := mkStX { xhost : world; xcalls : list call }.

Definition MX (A : Type) : Type := StX -> result A * StX.

Definition xret {A} (a : A) : MX A := fun s => (Ok a, s).

Definition xbind {A B} (m : MX A) (k : A -> MX B) : MX B :=
  fun s =>
    match m s with
    | (Ok a, s') => k a s'
    | (Raise e, s') => (Raise e, s')
    | (OutOfFuel, s') => (OutOfFuel, s')
    end.

Definition xread {R} (q : ReadX R) : MX R :=
  fun s => (Ok (observe_x q (xhost s)), s).

Definition xop {R} (c : OpX R) : MX R :=
  fun s =>
    let '(r, w') := perform_x c (xhost s) in
    let s' := mkStX w' (xcalls s ++ [Ext c]) in
    match r with
    | inr v => (Ok v, s')
    | inl e => (Raise e, s')
    end.

(** A computation over the first part of the interface, run here: its
    calls go to the end of the log. *)
Definition lift {A} (m : M A) : MX A :=
  fun s =>
    let '(r, s') := m (mkSt (xhost s) []) in
    (r, mkStX (host s') (xcalls s ++ map Base (calls s'))).

End ScriptX.

Declare Scope xscript_scope.
Delimit Scope xscript_scope with xscript.
Notation "x <- m ;; k" := (xbind m (fun x => k))
  (at level 61, m at next level, right associativity) : xscript_scope.
Notation "m ;; k" := (xbind m (fun _ => k))
  (at level 61, right associativity) : xscript_scope.

Section ScriptX_functions.

Context {H : Host} {HX : HostX H}.

Local Open Scope xscript_scope.

Fixpoint xfor_each {A} (l : list A) (body : A -> MX unit) : MX unit :=
  match l with
  | [] => xret tt
  | x :: rest => body x ;; xfor_each rest body
  end.

(** [move_node], lines 166-176 *)
Definition move_node (type_name : node) (gx gy : Q) : MX unit :=
  x <- xread (node_location_x type_name) ;;
  xop (set_node_location_x type_name (x + gx)%Q) ;;
  y <- xread (node_location_y type_name) ;;
  xop (set_node_location_y type_name (y + gy)%Q).


(** [clear_nodes], lines 208-216 *)
Definition clear_nodes (node_tree : ntree) : MX unit :=
  nodes <- xread (tree_nodes node_tree) ;;
  xfor_each nodes (fun n => xop (nodes_remove node_tree n)).

(** [enter_edit_mode], lines 270-282 *)
Definition enter_edit_mode (o : obj) : MX unit :=
  xop (set_view_layer_active o) ;;
  xop (obj_select_set o true) ;;
  xop (ops_object_mode_set "EDIT") ;;
  xret tt.

(** [exit_edit_mode], lines 287-299 *)
Definition exit_edit_mode (o : obj) : MX unit :=
  xop (set_view_layer_active o) ;;
  xop (obj_select_set o true) ;;
  xop (ops_object_mode_set "OBJECT") ;;
  xret tt.

(** [set_selection_mode], lines 305-325 *)
Definition set_selection_mode (o : obj) (mode : string) : MX unit :=
  m <- lift (read (obj_mode o)) ;;
  (if negb (String.eqb m "EDIT") then enter_edit_mode o else xret tt) ;;
  if String.eqb mode "VERTEX"
  then xop (ops_mesh_select_mode "VERT") ;; xret tt
  else if String.eqb mode "EDGE"
  then xop (ops_mesh_select_mode "EDGE") ;; xret tt
  else if String.eqb mode "FACE"
  then xop (ops_mesh_select_mode "FACE") ;; xret tt
  else
    lift (op (py_print ("Unsupported mode: " ++ mode
                        ++ ". Supported modes are VERTEX, EDGE, and FACE.")%string)).

(** [duplicate_mesh], lines 330-347 *)
Definition duplicate_mesh (o : obj) : MX (option obj) :=
  xop (set_view_layer_active o) ;;
  xop (obj_select_set o true) ;;
  xop ops_object_duplicate_move ;;
  duplicate_obj <- lift (read context_active_object) ;;
  xret duplicate_obj.

(** [duplicate_node], lines 350-373 *)
Definition duplicate_node (node_tree : ntree) (n : node) : MX (option node) :=
  sd <- xread context_space_data ;;
  sd <- lift (attr_of sd "node_tree") ;;
  xop (set_space_node_tree sd node_tree) ;;
  nodes <- xread (tree_nodes node_tree) ;;
  xfor_each nodes (fun n' => xop (set_node_select n' false)) ;;
  xop (set_node_select n true) ;;
  xop (set_tree_active_node node_tree n) ;;
  xop ops_node_duplicate ;;
  duplicate <- xread (tree_active_node node_tree) ;;
  xret duplicate.

(** [get_socket_names], lines 375-390: the dictionary, as its items. *)
Definition get_socket_names (n : node) : MX (list (string * list string)) :=
  inputs <- xread (node_input_names n) ;;
  outputs <- xread (node_output_names n) ;;
  let socket_info := [("inputs", inputs); ("outputs", outputs)] in
  xret socket_info.

(** The loop of lines 408-412: the first area of type 'VIEW_3D', or
    [None]. *)
Fixpoint first_view_3d (areas : list area) : MX (option area) :=
  match areas with
  | [] => xret None
  | a :: rest =>
      t <- xread (area_type a) ;;
      if String.eqb t "VIEW_3D" then xret (Some a) else first_view_3d rest
  end.

(** [get_active_geo_nodes_viewport_area], lines 392-412 *)
Definition get_active_geo_nodes_viewport_area : MX (option area) :=
  m <- xread context_mode ;;
  if negb (String.eqb m "OBJECT")
  then lift (op (py_print "Not in Object Mode!")) ;; xret None
  else
    name <- xread screen_name ;;
    if negb (String.eqb name "Geometry Nodes")
    then lift (op (py_print "Not in the Geometry Nodes tab!")) ;; xret None
    else
      areas <- xread screen_areas ;;
      first_view_3d areas.

(** [set_active_3d_view_to_wireframe], lines 414-425 *)
Definition set_active_3d_view_to_wireframe : MX unit :=
  active_3d_view <- get_active_geo_nodes_viewport_area ;;
  match active_3d_view with
  | Some a =>
      sp <- xread (area_spaces_at a 0) ;;
      sp <- lift (index_of sp 0) ;;
      xop (set_space_shading_type sp "WIREFRAME")
  | None =>
      lift (op (py_print
        "No active 3D Viewport found in the Geometry Nodes workspace."))
  end.

End ScriptX_functions.


(** The start-up scene once its only world is removed. *)
Definition worldless_state : @St mini_host :=
  snd (@op mini_host _ (data_worlds_remove "World") (start_state (3, 6, 0)%Z)).

(** Any call but the toggle of Edit Mode. *)
Definition not_toggle (l : logged) : bool :=
  match l with
  | Logged c =>
      match c with
      | ops_object_editmode_toggle => false
      | _ => true
      end
  end.


Section Edit_mode.

Context {H : Host}.

(** An object is active and it is in Edit Mode. *)
Definition in_edit_mode (w : world) : bool :=
  match observe context_active_object w with
  | Some o => String.eqb (observe (obj_mode o) w) "EDIT"
  | None => false
  end.

End Edit_mode.


(** ** The reference host, extended

    The reference host with the state the rest of the interface needs: node
    positions and selection, removed nodes, Geometry Nodes modifiers with
    their node groups, and the screen with its areas. *)

Module MiniX.

Record ui : Type := mkUi {
  node_xy : node -> Q * Q;
  node_sel : node -> bool;
  removed : list node;
  tree_active : ntree -> option node;
  groups : list (obj * string * option ntree);
  screen : string;
  areas : list string;
  shading : list (space * string);
  space_tree : option ntree;
  sel_mode : string
}.

Definition state : Type := (Mini.state * ui)%type.

Definition put_nodes_ui (u : ui) (xy : node -> Q * Q) (sel : node -> bool)
    (rm : list node) (act : ntree -> option node) : ui :=
  mkUi xy sel rm act (groups u) (screen u) (areas u) (shading u)
    (space_tree u) (sel_mode u).

Definition put_groups (u : ui) (g : list (obj * string * option ntree)) : ui :=
  mkUi (node_xy u) (node_sel u) (removed u) (tree_active u) g (screen u)
    (areas u) (shading u) (space_tree u) (sel_mode u).

Definition put_view (u : ui) (sh : list (space * string))
    (st : option ntree) (sm : string) : ui :=
  mkUi (node_xy u) (node_sel u) (removed u) (tree_active u) (groups u)
    (screen u) (areas u) sh st sm.

Definition has_group (u : ui) (o : obj) (name : string) : bool :=
  existsb (fun g => Nat.eqb (fst (fst g)) o && String.eqb (snd (fst g)) name)
    (groups u).

(** The name a new Geometry Nodes modifier gets on [o]. *)
Definition new_modifier_name (u : ui) (o : obj) : string :=
  if has_group u o "GeometryNodes" then
    if has_group u o "GeometryNodes.001" then "GeometryNodes.002"
    else "GeometryNodes.001"
  else "GeometryNodes".

Definition observe (R : Type) (q : Read R) (x : state) : R :=
  Mini.observe R q (fst x).

Definition perform (R : Type) (c : Op R) (x : state) : (exn + R) * state :=
  let '(w, u) := x in
  let '(r, w') := Mini.perform R c w in
  let u' :=
    match c with
    | ops_node_new_geometry_nodes_modifier =>
        match Mini.get_active w with
        | Some o =>
            put_groups u
              (groups u ++ [(o, new_modifier_name u o, Some (Mini.fresh_tree (Mini.bl w)))])
        | None => u
        end
    | _ => u
    end in
  (r, (w', u')).

Definition live_nodes (x : state) (nt : ntree) : list node :=
  filter (fun n => negb (existsb (Nat.eqb n) (removed (snd x))))
    (Mini.indices (fun n : ntree * string => Nat.eqb (fst n) nt)
       (Mini.nodes (Mini.bl (fst x))) 0).

Definition mode_name (w : Mini.state) : string :=
  match Mini.get_active w with
  | Some o => if String.eqb (Mini.mode_of w o) "EDIT" then "EDIT_MESH" else "OBJECT"
  | None => "OBJECT"
  end.

Definition socket_names (w : Mini.state) (n : node) (output : bool) : list string :=
  map snd
    (filter (fun s : node * bool * string =>
               Nat.eqb (fst (fst s)) n && Bool.eqb (snd (fst s)) output)
       (Mini.sockets (Mini.bl w))).

Definition observe_x (R : Type) (q : ReadX R) (x : state) : R :=
  let '(w, u) := x in
  match q in ReadX R return R with
  | node_location_x n => fst (node_xy u n)
  | node_location_y n => snd (node_xy u n)
  | node_select_get n => node_sel u n
  | node_input_names n => socket_names w n false
  | node_output_names n => socket_names w n true
  | tree_nodes nt => live_nodes x nt
  | tree_active_node nt => tree_active u nt
  | obj_modifiers_get o name =>
      Mini.first_index
        (fun g : obj * string * option ntree =>
           Nat.eqb (fst (fst g)) o && String.eqb (snd (fst g)) name)
        (groups u)
  | modifier_node_group m =>
      match nth_error (groups u) m with
      | Some g => snd g
      | None => None
      end
  | context_mode => mode_name w
  | context_space_data => Mini.first_index (String.eqb "NODE_EDITOR") (areas u)
  | screen_name => screen u
  | screen_areas => seq 0 (List.length (areas u))
  | area_type a => nth a (areas u) ""
  | area_spaces_at a i =>
      if Nat.eqb i 0 && Nat.ltb a (List.length (areas u)) then Some a else None
  | space_shading_type sp =>
      match find (fun p : space * string => Nat.eqb (fst p) sp) (shading u) with
      | Some p => snd p
      | None => "SOLID"
      end
  end.

Definition set_active (w : Mini.state) (o : obj) : Mini.state :=
  let s := Mini.sc w in
  Mini.with_sc w
    (Mini.mkScene (Mini.objects s) (Some o) (Mini.flag s) (Mini.attr s)
       (Mini.modifiers s)).

(** A copy of the active object [o]: it takes the selection and becomes
    the active object. *)
Definition duplicate_object (w : Mini.state) (o : obj) : Mini.state :=
  let s := Mini.sc w in
  let o' := S (fold_right Nat.max 0 (Mini.objects s)) in
  Mini.with_sc w
    (Mini.mkScene (Mini.objects s ++ [o']) (Some o')
       (fun x n => if String.eqb n "select" then Nat.eqb x o'
                   else if Nat.eqb x o' then Mini.flag s o n else Mini.flag s x n)
       (fun x n => if Nat.eqb x o' then Mini.attr s o n else Mini.attr s x n)
       (fun x => if Nat.eqb x o' then Mini.modifiers s o else Mini.modifiers s x)).

(** Copies of the selected nodes of [nt]: they take the selection and the
    last one becomes the active node. *)
Definition duplicate_nodes (x : state) (nt : ntree) (sel : list node) : state :=
  let '(w, u) := x in
  let n0 := List.length (Mini.nodes (Mini.bl w)) in
  let copies :=
    map (fun n => match nth_error (Mini.nodes (Mini.bl w)) n with
                  | Some d => (nt, (snd d ++ ".001")%string)
                  | None => (nt, "Node")
                  end) sel in
  let fresh := seq n0 (List.length sel) in
  (Mini.upd_blend w (fun b =>
     Mini.put_nodes (Mini.nodes b ++ copies) (Mini.sockets b) b),
   put_nodes_ui u
     (fun n => match find (fun p => Nat.eqb (fst p) n) (combine fresh sel) with
               | Some p => node_xy u (snd p)
               | None => node_xy u n
               end)
     (fun n => existsb (Nat.eqb n) fresh)
     (removed u)
     (fun t => if Nat.eqb t nt then Some (last fresh 0) else tree_active u t)).

Definition perform_x (R : Type) (c : OpX R) (x : state) : (exn + R) * state :=
  let '(w, u) := x in
  match c in OpX R return (exn + R) * state with
  | set_node_location_x n v =>
      (inr tt,
       (w, put_nodes_ui u
             (fun n' => if Nat.eqb n' n then (v, snd (node_xy u n')) else node_xy u n')
             (node_sel u) (removed u) (tree_active u)))
  | set_node_location_y n v =>
      (inr tt,
       (w, put_nodes_ui u
             (fun n' => if Nat.eqb n' n then (fst (node_xy u n'), v) else node_xy u n')
             (node_sel u) (removed u) (tree_active u)))
  | set_node_select n b =>
      (inr tt,
       (w, put_nodes_ui u (node_xy u)
             (fun n' => if Nat.eqb n' n then b else node_sel u n')
             (removed u) (tree_active u)))
  | set_tree_active_node nt n =>
      (inr tt,
       (w, put_nodes_ui u (node_xy u) (node_sel u) (removed u)
             (fun t => if Nat.eqb t nt then Some n else tree_active u t)))
  | nodes_remove nt n =>
      if existsb (Nat.eqb n) (live_nodes x nt) then
        (inr tt,
         (w, put_nodes_ui u (node_xy u) (node_sel u) (n :: removed u) (tree_active u)))
      else (inl (Mini.stale "node"), x)
  | set_view_layer_active o =>
      if Mini.has_obj w o then (inr tt, (set_active w o, u))
      else (inl (Mini.stale "object"), x)
  | obj_select_set o b =>
      if Mini.has_obj w o then (inr tt, (Mini.set_flag w o "select" b, u))
      else (inl (Mini.stale "object"), x)
  | set_space_node_tree sp nt =>
      (inr tt, (w, put_view u (shading u) (Some nt) (sel_mode u)))
  | set_space_shading_type sp v =>
      (inr tt, (w, put_view u ((sp, v) :: shading u) (space_tree u) (sel_mode u)))
  | ops_object_mode_set mode =>
      match Mini.get_active w with
      | None => (inl (RuntimeError "context is incorrect"), x)
      | Some o =>
          if String.eqb mode "OBJECT" || String.eqb mode "EDIT"
          then (inr "FINISHED", (Mini.set_attr w o "mode" (PStr mode), u))
          else (inl (TypeError "enum not found"), x)
      end
  | ops_mesh_select_mode type =>
      if String.eqb (mode_name w) "EDIT_MESH"
      then (inr "FINISHED", (w, put_view u (shading u) (space_tree u) type))
      else (inl (RuntimeError "context is incorrect"), x)
  | ops_object_duplicate_move =>
      match Mini.get_active w with
      | None => (inr "CANCELLED", x)
      | Some o => (inr "FINISHED", (duplicate_object w o, u))
      end
  | ops_node_duplicate =>
      match space_tree u with
      | None => (inl (RuntimeError "context is incorrect"), x)
      | Some nt =>
          match filter (node_sel u) (live_nodes x nt) with
          | [] => (inr "CANCELLED", x)
          | sel => (inr "FINISHED", duplicate_nodes x nt sel)
          end
      end
  end.

(** The start-up screen: the Geometry Nodes workspace with a spreadsheet, a
    3D viewport and a node editor; nothing selected or removed. *)
Definition startup_ui : ui :=
  mkUi (fun _ => ((0 # 1)%Q, (0 # 1)%Q)) (fun _ => false) [] (fun _ => None) []
    "Geometry Nodes" ["SPREADSHEET"; "VIEW_3D"; "NODE_EDITOR"] [] None "VERT".

End MiniX.

Definition minix_host : Host := {|
  world := MiniX.state;
  observe := MiniX.observe;
  perform := MiniX.perform;
  py_str := Mini.str_of;
  py_add := Mini.vec_op Qplus;
  py_mul := Mini.vec_op Qmult
|}.

Definition minix_hostx : HostX minix_host :=
  @Build_HostX minix_host MiniX.observe_x MiniX.perform_x.

(** Runs on the extended reference host start here. *)
Definition startx (u : MiniX.ui) : @StX minix_host :=
  @mkStX minix_host (Mini.startup (3, 6, 0)%Z, u) [].


Section ContractX.

Context {H : Host} {HX : HostX H}.

(** The call [c] of the rest of the interface returns normally from [w]
    and leaves [w']. *)
Definition returns_x {R} (c : OpX R) (w w' : world) : Prop :=
  exists r, perform_x c w = (inr r, w').

(** The three calls with which [enter_edit_mode] puts an object into
    Edit Mode. *)
Definition switch_calls (o : obj) (mode : string) : list call :=
  [Ext (set_view_layer_active o); Ext (obj_select_set o true);
   Ext (ops_object_mode_set mode)].

(** The line [set_selection_mode] prints for a mode it does not know. *)
Definition unsupported_mode (mode : string) : string :=
  ("Unsupported mode: " ++ mode
   ++ ". Supported modes are VERTEX, EDGE, and FACE.")%string.

End ContractX.


Section ContractX_more.

Context {H : Host} {HX : HostX H}.


(** The test of the loop of lines 408-410. *)
Definition is_view_3d (w : world) (a : area) : bool :=
  String.eqb (observe_x (area_type a) w) "VIEW_3D".


End ContractX_more.


(** The line [set_active_3d_view_to_wireframe] prints when it finds no
    viewport. *)
Definition no_viewport : call :=
  Base (Logged (py_print
    "No active 3D Viewport found in the Geometry Nodes workspace.")).


(** The links of a tree on the reference host, as pairs of an output and
    an input socket, oldest first. *)
Definition mini_links (w : Mini.state) (nt : ntree) : list (socket * socket) :=
  map (fun l : ntree * socket * socket => (snd (fst l), snd l))
    (filter (fun l : ntree * socket * socket => Nat.eqb (fst (fst l)) nt)
       (Mini.links (Mini.bl w))).

(** The start-up scene with one more node in the tree of the world: node 2,
    "Emission", with the output socket 4 of that name.  The link of the
    start-up scene, from socket 2 to the input 3 ("Surface"), is there. *)
Definition shader_state : @St mini_host :=
  @mkSt mini_host
    (Mini.upd_blend (Mini.startup (3, 6, 0)%Z) (fun b =>
       Mini.put_nodes (Mini.nodes b ++ [(1, "Emission")])
         (Mini.sockets b ++ [(2, true, "Emission")]) b))
    [].


(** ** Reasoning about scripts *)

Section Script_lemmas.

Context {H : Host}.

Lemma bind_Ok {A B} (m : M A) (k : A -> M B) s b s' :
  bind m k s = (Ok b, s') ->
  exists a s1, m s = (Ok a, s1) /\ k a s1 = (Ok b, s').
Proof.
  unfold bind. destruct (m s) as [[a | e |] s1]; intro E; try discriminate.
  exists a, s1. split; [reflexivity | exact E].
Qed.

Lemma bind_ret_tt (m : M unit) s : bind m (fun _ => ret tt) s = m s.
Proof.
  unfold bind, ret. destruct (m s) as [[[] | e |] s1]; reflexivity.
Qed.

Lemma bind_ret_id {A} (m : M A) s : bind m (fun a => ret a) s = m s.
Proof.
  unfold bind, ret. destruct (m s) as [[a | e |] s1]; reflexivity.
Qed.

Lemma op_Ok {R} (c : Op R) s v s' :
  op c s = (Ok v, s') ->
  perform c (host s) = (inr v, host s') /\ calls s' = calls s ++ [Logged c].
Proof.
  unfold op. destruct (perform c (host s)) as [[e | r] w']; intro E;
    inversion E; subst; simpl; auto.
Qed.

Lemma read_Ok {R} (q : Read R) s v s' :
  read q s = (Ok v, s') -> v = observe q (host s) /\ s' = s.
Proof. unfold read. intro E. inversion E. auto. Qed.

Lemma ret_Ok {A} (a : A) s v s' : ret a s = (Ok v, s') -> v = a /\ s' = s.
Proof. unfold ret. intro E. inversion E. auto. Qed.

Lemma attr_of_Ok {A} (x : option A) attr s v s' :
  attr_of x attr s = (Ok v, s') -> x = Some v /\ s' = s.
Proof.
  destruct x; simpl; unfold ret, raise; intro E; inversion E; auto.
Qed.

Lemma item_of_Ok {A} (x : option A) key s v s' :
  item_of x key s = (Ok v, s') -> x = Some v /\ s' = s.
Proof.
  destruct x; simpl; unfold ret, raise; intro E; inversion E; auto.
Qed.

End Script_lemmas.

(** Takes a hypothesis [m s = (Ok v, s')] apart along the binds of [m]. *)
Ltac script_inv E :=
  let a := fresh "v" in
  let s1 := fresh "s" in
  let E1 := fresh "E" in
  let E2 := fresh "E" in
  lazymatch type of E with
  | bind _ _ _ = (Ok _, _) =>
      apply bind_Ok in E; destruct E as (a & s1 & E1 & E2);
      cbv beta zeta in E1, E2;
      script_inv E1; script_inv E2
  | op _ _ = (Ok _, _) =>
      apply op_Ok in E; destruct E as (E1 & E2)
  | read _ _ = (Ok _, _) =>
      apply read_Ok in E; destruct E as (E1 & E2); subst
  | ret _ _ = (Ok _, _) =>
      apply ret_Ok in E; destruct E as (E1 & E2); subst
  | attr_of _ _ _ = (Ok _, _) =>
      apply attr_of_Ok in E; destruct E as (E1 & E2); subst
  | item_of _ _ _ = (Ok _, _) =>
      apply item_of_Ok in E; destruct E as (E1 & E2); subst
  | _ => idtac
  end.

(** ** The script's own behaviour, for every host *)

Section Script_theorems.

Context {H : Host}.

(** C2.  [create_centerpiece] is an empty placeholder: in every state it
    returns [None] normally, performs no host call and leaves the whole
    state (host and call log) as it was; so [main] does what [scene_setup]
    alone does. *)
Theorem create_centerpiece_is_noop (s : St) :
  create_centerpiece s = (Ok tt, s)
  /\ calls (snd (create_centerpiece s)) = calls s
  /\ host (snd (create_centerpiece s)) = host s
  /\ forall fuel, main fuel s = scene_setup fuel s.
Proof.
  repeat split.
  intro fuel. unfold main, create_centerpiece. apply bind_ret_tt.
Qed.

(** C9.  For a [mesh_type] other than 'PLANE', 'CUBE' and 'SPHERE',
    [create_mesh] performs no call at all, raises nothing, and returns the
    object that was active before the call (or [None]); the host state, and
    so the set of objects, is unchanged. *)
Theorem create_mesh_unknown_type (mesh_type : string) (location : pyval) (s : St) :
  mesh_type <> "PLANE" -> mesh_type <> "CUBE" -> mesh_type <> "SPHERE" ->
  create_mesh mesh_type location s = (Ok (observe context_active_object (host s)), s)
  /\ observe data_objects (host (snd (create_mesh mesh_type location s)))
     = observe data_objects (host s).
Proof.
  intros Hp Hc Hs.
  assert (E : create_mesh mesh_type location s
              = (Ok (observe context_active_object (host s)), s)).
  { unfold create_mesh.
    apply String.eqb_neq in Hp, Hc, Hs. rewrite Hp, Hc, Hs. reflexivity. }
  split; [exact E | rewrite E; reflexivity].
Qed.

(** C8.  On a host whose [bpy] module has no attribute [Vector],
    [move_object] and [scale_object] raise an attribute error for every
    object and vector, before any call is performed: the state, and with it
    the object's location and scale, is unchanged. *)
Theorem move_scale_object_raise :
  (forall w, observe (bpy_attr "Vector") w = None) ->
  forall (o : obj) (v : pyval) (s : St),
    move_object o v s = (Raise (AttributeError "bpy" "Vector"), s)
    /\ scale_object o v s = (Raise (AttributeError "bpy" "Vector"), s)
    /\ observe (obj_location o) (host (snd (move_object o v s)))
       = observe (obj_location o) (host s)
    /\ observe (obj_scale o) (host (snd (scale_object o v s)))
       = observe (obj_scale o) (host s).
Proof.
  intros Hv o v s.
  assert (Em : move_object o v s = (Raise (AttributeError "bpy" "Vector"), s)).
  { unfold move_object, bpy_getattr, bind, read. simpl. rewrite Hv. reflexivity. }
  assert (Es : scale_object o v s = (Raise (AttributeError "bpy" "Vector"), s)).
  { unfold scale_object, bpy_getattr, bind, read. simpl. rewrite Hv. reflexivity. }
  rewrite Em, Es. repeat split.
Qed.

Lemma time_seed_Ok s t s1 :
  time_seed s = (Ok t, s1) ->
  calls s1 = calls s ++
    [Logged time_time; Logged (py_print ("seed: " ++ py_str t)%string);
     Logged (random_seed t); Logged (set_clipboard (py_str t))]
  /\ exists w, perform time_time (host s) = (inr t, w).
Proof.
  unfold time_seed. intro E. script_inv E.
  split.
  - rewrite E8, E6, E4, E2. rewrite <- !app_assoc. reflexivity.
  - eexists. eassumption.
Qed.

(** C10.  The fixed-seed branch of [scene_setup] is never taken: in every
    state [scene_setup] is [time_seed] followed by [clean_scene] and
    [set_scene_props(30, 360)].  When [time_seed] returns the seed [t], [t]
    is what [time.time()] answered, and the calls made are [time.time()],
    the print of the seed, [random.seed(t)] and the write of [str(t)] to the
    clipboard. *)
Theorem scene_setup_time_seed (fuel : nat) (s : St) :
  scene_setup fuel s
  = (time_seed ;; clean_scene fuel ;; set_scene_props 30 360) s
  /\ (forall t s1, time_seed s = (Ok t, s1) ->
        (exists w, perform time_time (host s) = (inr t, w))
        /\ calls s1 = calls s ++
             [Logged time_time; Logged (py_print ("seed: " ++ py_str t)%string);
              Logged (random_seed t); Logged (set_clipboard (py_str t))]
        /\ scene_setup fuel s = (clean_scene fuel ;; set_scene_props 30 360) s1).
Proof.
  assert (E : scene_setup fuel s
              = (time_seed ;; clean_scene fuel ;; set_scene_props 30 360) s).
  { unfold scene_setup, bind, ret.
    change (truthy (PInt 0)) with false. cbv beta iota.
    destruct (time_seed s) as [[t | e |] s1]; reflexivity. }
  split; [exact E |].
  intros t s1 Et. destruct (time_seed_Ok _ _ _ Et) as [Hc Hw].
  repeat split; [exact Hw | exact Hc |].
  rewrite E. unfold bind at 1. rewrite Et. reflexivity.
Qed.

End Script_theorems.

(** ** Node helpers *)

Section Node_helpers.

Context {H : Host}.

Lemma create_link_unfold nt f on t inn s :
  create_link nt f on t inn s =
  match observe (node_outputs_get f on) (host s),
        observe (node_inputs_get t inn) (host s) with
  | Some a, Some b => (op (links_new nt a b) ;; ret tt) s
  | None, _ => (Raise (KeyError on), s)
  | Some _, None => (Raise (KeyError inn), s)
  end.
Proof.
  unfold create_link, bind at 1, read at 1. cbv beta iota.
  destruct (observe (node_outputs_get f on) (host s)) as [a |]; simpl item_of.
  - unfold bind at 1, ret at 1. cbv beta iota.
    unfold bind at 1, read at 1. cbv beta iota.
    destruct (observe (node_inputs_get t inn) (host s)) as [b |]; simpl item_of.
    + unfold bind at 1, ret at 1. reflexivity.
    + reflexivity.
  - reflexivity.
Qed.

(** C7, amended.  [create_node] is the single call
    [node_tree.nodes.new(type=...)]: same result, same final state, one
    entry in the call log.  [create_link] is the call
    [node_tree.links.new(...)] on the sockets the two names select: a name
    that selects no socket raises the lookup's [KeyError] and nothing is
    called; when [create_link] returns, exactly one call was made,
    [links.new] from the named output socket of the source node to the
    named input socket of the destination node, and the host is changed as
    that one call changes it.  So whatever [links.new] leaves alone,
    [create_link] leaves alone; and where [links.new] adds its link and
    keeps the links of the tree whenever the input socket has no link yet,
    [create_link] into such a socket leaves the tree with its old links and
    the one new link. *)
Theorem create_node_create_link_thin_wrappers :
  (forall nt ty s,
      create_node nt ty s = op (nodes_new nt ty) s
      /\ calls (snd (create_node nt ty s)) = calls s ++ [Logged (nodes_new nt ty)]
      /\ host (snd (create_node nt ty s)) = snd (perform (nodes_new nt ty) (host s)))
  /\ (forall nt f on t inn s,
      create_link nt f on t inn s =
      match observe (node_outputs_get f on) (host s),
            observe (node_inputs_get t inn) (host s) with
      | Some a, Some b => (op (links_new nt a b) ;; ret tt) s
      | None, _ => (Raise (KeyError on), s)
      | Some _, None => (Raise (KeyError inn), s)
      end)
  /\ (forall nt f on t inn s s',
      create_link nt f on t inn s = (Ok tt, s') ->
      exists a b l,
        observe (node_outputs_get f on) (host s) = Some a
        /\ observe (node_inputs_get t inn) (host s) = Some b
        /\ perform (links_new nt a b) (host s) = (inr l, host s')
        /\ calls s' = calls s ++ [Logged (links_new nt a b)]
        /\ (forall (T : Type) (obs : world -> T),
              (forall w w' l', perform (links_new nt a b) w = (inr l', w') ->
                               obs w' = obs w) ->
              obs (host s') = obs (host s))
        /\ (forall links_of : world -> ntree -> list (socket * socket),
              (forall w w' l', perform (links_new nt a b) w = (inr l', w') ->
                 (forall a', ~ In (a', b) (links_of w nt)) ->
                 links_of w' nt = links_of w nt ++ [(a, b)]) ->
              (forall a', ~ In (a', b) (links_of (host s) nt)) ->
              links_of (host s') nt = links_of (host s) nt ++ [(a, b)])).
Proof.
  split; [| split].
  - intros nt ty s.
    assert (E : create_node nt ty s = op (nodes_new nt ty) s)
      by (unfold create_node; apply bind_ret_id).
    rewrite E. split; [reflexivity |].
    unfold op. destruct (perform (nodes_new nt ty) (host s)) as [[e | n] w'];
      split; reflexivity.
  - intros. apply create_link_unfold.
  - intros nt f on t inn s s' E. rewrite create_link_unfold in E.
    destruct (observe (node_outputs_get f on) (host s)) as [a |]; [| discriminate].
    destruct (observe (node_inputs_get t inn) (host s)) as [b |]; [| discriminate].
    apply bind_Ok in E. destruct E as (l & s1 & E1 & E2).
    apply ret_Ok in E2. destruct E2 as [_ ->].
    apply op_Ok in E1. destruct E1 as [P C].
    exists a, b, l.
    split; [reflexivity |]. split; [reflexivity |].
    split; [exact P |]. split; [exact C |]. split.
    + intros T obs Hobs. exact (Hobs _ _ _ P).
    + intros links_of Hnew Hfree. exact (Hnew _ _ _ P Hfree).
Qed.

End Node_helpers.

(** ** Orphan purge *)

Section Purge.

Context {H : Host}.

Lemma purge_orphans_new fuel s :
  tuple_ge (observe app_version (host s)) (3, 0, 0)%Z = true ->
  purge_orphans (S fuel) s = (op (ops_outliner_orphans_purge purge_kw) ;; ret tt) s.
Proof.
  intro V. simpl purge_orphans. unfold bind at 1, read at 1. cbv beta iota.
  rewrite V. reflexivity.
Qed.

Lemma purge_orphans_old fuel s :
  tuple_ge (observe app_version (host s)) (3, 0, 0)%Z = false ->
  purge_orphans (S fuel) s =
  match perform (ops_outliner_orphans_purge []) (host s) with
  | (inr status, w') =>
      let s1 := mkSt w' (calls s ++ [Logged (ops_outliner_orphans_purge [])]) in
      if String.eqb status "CANCELLED" then (Ok tt, s1) else purge_orphans fuel s1
  | (inl e, w') =>
      (Raise e, mkSt w' (calls s ++ [Logged (ops_outliner_orphans_purge [])]))
  end.
Proof.
  intro V. simpl purge_orphans. unfold bind at 1, read at 1. cbv beta iota.
  rewrite V. unfold bind at 1, op at 1.
  destruct (perform (ops_outliner_orphans_purge []) (host s)) as [[e | status] w'].
  - reflexivity.
  - cbv beta iota zeta. destruct (String.eqb status "CANCELLED"); reflexivity.
Qed.

Lemma purge_orphans_returns :
  (forall w status w',
      perform (ops_outliner_orphans_purge []) w = (inr status, w') ->
      status <> "CANCELLED" ->
      observe orphan_count w' < observe orphan_count w) ->
  forall fuel s,
    observe orphan_count (host s) < fuel ->
    fst (purge_orphans fuel s) <> OutOfFuel.
Proof.
  intros Hdec fuel. induction fuel as [| n IH]; intros s Hlt; [lia |].
  destruct (tuple_ge (observe app_version (host s)) (3, 0, 0)%Z) eqn:V.
  - rewrite (purge_orphans_new _ _ V). unfold bind, op, ret.
    destruct (perform (ops_outliner_orphans_purge purge_kw) (host s)) as [[e | st] w'];
      simpl; discriminate.
  - rewrite (purge_orphans_old _ _ V).
    destruct (perform (ops_outliner_orphans_purge []) (host s))
      as [[e | st] w'] eqn:P; [simpl; discriminate |].
    cbv zeta. destruct (String.eqb st "CANCELLED") eqn:C; [simpl; discriminate |].
    apply IH. simpl host.
    apply String.eqb_neq in C. specialize (Hdec _ _ _ P C). lia.
Qed.

(** C4.  On a host version at or above 3.0.0, [purge_orphans] makes exactly
    one call, the purge with [do_local_ids], [do_linked_ids] and
    [do_recursive] all true.  Below 3.0.0 it makes one plain purge call and
    recurses exactly when that call answers something other than
    "CANCELLED".  If every purge that is not cancelled lowers the number of
    orphan data blocks, the recursion ends: more fuel than there are orphans
    is never used up. *)
Theorem purge_orphans_recursion :
  (forall fuel s,
      tuple_ge (observe app_version (host s)) (3, 0, 0)%Z = true ->
      purge_orphans (S fuel) s = (op (ops_outliner_orphans_purge purge_kw) ;; ret tt) s
      /\ calls (snd (purge_orphans (S fuel) s))
         = calls s ++ [Logged (ops_outliner_orphans_purge
                                 [("do_local_ids", true); ("do_linked_ids", true);
                                  ("do_recursive", true)])])
  /\ (forall fuel s,
      tuple_ge (observe app_version (host s)) (3, 0, 0)%Z = false ->
      purge_orphans (S fuel) s =
      match perform (ops_outliner_orphans_purge []) (host s) with
      | (inr status, w') =>
          let s1 := mkSt w' (calls s ++ [Logged (ops_outliner_orphans_purge [])]) in
          if String.eqb status "CANCELLED" then (Ok tt, s1) else purge_orphans fuel s1
      | (inl e, w') =>
          (Raise e, mkSt w' (calls s ++ [Logged (ops_outliner_orphans_purge [])]))
      end)
  /\ ((forall w status w',
          perform (ops_outliner_orphans_purge []) w = (inr status, w') ->
          status <> "CANCELLED" ->
          observe orphan_count w' < observe orphan_count w) ->
      forall fuel s,
        observe orphan_count (host s) < fuel ->
        fst (purge_orphans fuel s) <> OutOfFuel).
Proof.
  split; [| split].
  - intros fuel s V. rewrite (purge_orphans_new _ _ V). split; [reflexivity |].
    unfold bind, op, ret.
    destruct (perform (ops_outliner_orphans_purge purge_kw) (host s)) as [[e | st] w'];
      reflexivity.
  - apply purge_orphans_old.
  - apply purge_orphans_returns.
Qed.

(** C5.  Take a host on which a plain purge answers "CANCELLED" only when
    no orphan data block is left, and on which a recursive purge leaves no
    orphan data block.  Then, from every state and on every version, when
    [purge_orphans] returns no orphan data block remains. *)
Theorem purge_orphans_leaves_no_orphans :
  (forall w w',
      perform (ops_outliner_orphans_purge []) w = (inr "CANCELLED", w') ->
      observe orphan_count w' = 0) ->
  (forall w status w',
      perform (ops_outliner_orphans_purge purge_kw) w = (inr status, w') ->
      observe orphan_count w' = 0) ->
  forall fuel s s',
    purge_orphans fuel s = (Ok tt, s') ->
    observe orphan_count (host s') = 0.
Proof.
  intros Hcan Hrec fuel. induction fuel as [| n IH]; intros s s' E.
  - discriminate.
  - destruct (tuple_ge (observe app_version (host s)) (3, 0, 0)%Z) eqn:V.
    + rewrite (purge_orphans_new _ _ V) in E. script_inv E.
      eapply Hrec. eassumption.
    + rewrite (purge_orphans_old _ _ V) in E.
      destruct (perform (ops_outliner_orphans_purge []) (host s))
        as [[e | st] w'] eqn:P; [discriminate |].
      cbv zeta in E. destruct (String.eqb st "CANCELLED") eqn:C.
      * inversion E; subst. simpl. apply String.eqb_eq in C. subst st.
        eapply Hcan. eassumption.
      * eapply IH. eassumption.
Qed.

End Purge.

(** ** Keyframe loop *)

Section Animation.

Context {H : Host}.








End Animation.

(** ** The calls of [main] *)

Section Emits.

Context {H : Host}.
Variable P : logged -> bool.

Lemma emits_ret {A} (a : A) : emits P (ret a).
Proof. intro s. exists []. simpl. rewrite app_nil_r. auto. Qed.

Lemma emits_raise {A} (e : exn) : emits P (@raise _ A e).
Proof. intro s. exists []. simpl. rewrite app_nil_r. auto. Qed.

Lemma emits_out_of_fuel {A} : emits P (@out_of_fuel _ A).
Proof. intro s. exists []. simpl. rewrite app_nil_r. auto. Qed.

Lemma emits_read {R} (q : Read R) : emits P (read q).
Proof. intro s. exists []. simpl. rewrite app_nil_r. auto. Qed.

Lemma emits_op {R} (c : Op R) : P (Logged c) = true -> emits P (op c).
Proof.
  intros Hc s. exists [Logged c]. unfold op.
  destruct (perform c (host s)) as [[e | v] w']; simpl; rewrite Hc; auto.
Qed.

Lemma emits_bind {A B} (m : M A) (k : A -> M B) :
  emits P m -> (forall a, emits P (k a)) -> emits P (bind m k).
Proof.
  intros Hm Hk s. destruct (Hm s) as (d1 & E1 & F1). unfold bind.
  destruct (m s) as [[a | e |] s1]; simpl in *.
  - destruct (Hk a s1) as (d2 & E2 & F2). exists (d1 ++ d2).
    rewrite E2, E1, app_assoc, forallb_app, F1, F2. auto.
  - exists d1. auto.
  - exists d1. auto.
Qed.

Lemma emits_for_each {A} (l : list A) (body : A -> M unit) :
  (forall x, emits P (body x)) -> emits P (for_each l body).
Proof.
  intro Hb. induction l as [| x l IH]; simpl.
  - apply emits_ret.
  - apply emits_bind; auto.
Qed.

Lemma emits_attr_of {A} (x : option A) attr : emits P (attr_of x attr).
Proof. destruct x; [apply emits_ret | apply emits_raise]. Qed.

Lemma emits_item_of {A} (x : option A) key : emits P (item_of x key).
Proof. destruct x; [apply emits_ret | apply emits_raise]. Qed.

Lemma emits_index_of {A} (x : option A) i : emits P (index_of x i).
Proof. destruct x; [apply emits_ret | apply emits_raise]. Qed.

End Emits.

Ltac emits_step :=
  lazymatch goal with
  | |- emits _ (bind _ _) => apply emits_bind; [| intro]
  | |- emits _ (op _) => apply emits_op; reflexivity
  | |- emits _ (read _) => apply emits_read
  | |- emits _ (ret _) => apply emits_ret
  | |- emits _ (raise _) => apply emits_raise
  | |- emits _ (for_each _ _) => apply emits_for_each; intro
  | |- emits _ (attr_of _ _) => apply emits_attr_of
  | |- emits _ (item_of _ _) => apply emits_item_of
  | |- emits _ (index_of _ _) => apply emits_index_of
  | |- emits _ (if ?b then _ else _) => destruct b
  | |- emits _ (match ?x with _ => _ end) => destruct x
  end.

Section Main.

Context {H : Host}.

Lemma purge_orphans_setup_calls fuel : emits setup_call (purge_orphans fuel).
Proof.
  induction fuel as [| n IH]; simpl.
  - apply emits_out_of_fuel.
  - repeat emits_step. exact IH.
Qed.

Lemma clean_scene_setup_calls fuel : emits setup_call (clean_scene fuel).
Proof.
  unfold clean_scene, clean_scene_body.
  repeat emits_step. apply purge_orphans_setup_calls.
Qed.

Lemma time_seed_setup_calls : emits setup_call time_seed.
Proof. unfold time_seed. repeat emits_step. Qed.

Lemma set_scene_props_setup_calls fps n : emits setup_call (set_scene_props fps n).
Proof. unfold set_scene_props. repeat emits_step. Qed.

Lemma scene_setup_setup_calls fuel : emits setup_call (scene_setup fuel).
Proof.
  unfold scene_setup. change (truthy (PInt 0)) with false. cbv beta iota zeta.
  repeat emits_step.
  - apply time_seed_setup_calls.
  - apply clean_scene_setup_calls.
  - apply set_scene_props_setup_calls.
Qed.

(** C1, amended.  In every state [main] does what [scene_setup] does and
    nothing more: every call it makes is one of [scene_setup], that is a
    call of the Python runtime, of the scene cleanup or a write of a scene
    property; it makes no call that creates a mesh, adds a Geometry Nodes
    modifier, creates or links a node, sets or keyframes a property. *)
Theorem main_only_sets_up_the_scene (fuel : nat) (s : St) :
  main fuel s = scene_setup fuel s
  /\ exists d,
       calls (snd (main fuel s)) = calls s ++ d
       /\ forallb setup_call d = true
       /\ (forall nt ty, ~ In (Logged (nodes_new nt ty)) d)
       /\ (forall nt a b, ~ In (Logged (links_new nt a b)) d)
       /\ ~ In (Logged ops_node_new_geometry_nodes_modifier) d
       /\ (forall loc, ~ In (Logged (ops_mesh_primitive_cube_add loc)) d)
       /\ (forall o p f, ~ In (Logged (keyframe_insert o p f)) d).
Proof.
  assert (E : main fuel s = scene_setup fuel s)
    by (unfold main, create_centerpiece; apply bind_ret_tt).
  split; [exact E |]. rewrite E.
  destruct (scene_setup_setup_calls fuel s) as (d & Hd & Hf).
  exists d. split; [exact Hd |]. split; [exact Hf |].
  rewrite forallb_forall in Hf.
  repeat split; intros; intro Hin; apply Hf in Hin; discriminate.
Qed.

End Main.

(** ** Scene cleanup *)

Section Remove_loop.

Context {H : Host}.
Variable names : world -> list string.
Variable get : string -> Read (option string).
Variable rm : string -> Op unit.
Variable Inv : world -> Prop.
Hypothesis get_name : forall n w x, observe (get n) w = Some x -> x = n.
Hypothesis rm_names :
  forall x w w', returns (rm x) w w' -> names w' = remove string_dec x (names w).
Hypothesis rm_keeps : forall x w w', returns (rm x) w w' -> Inv w -> Inv w'.

Lemma remove_loop (l : list string) :
  forall s s',
    for_each l (fun name =>
      c <- read (get name) ;; c <- item_of c name ;; op (rm c)) s = (Ok tt, s') ->
    names (host s')
    = fold_left (fun acc n => remove string_dec n acc) l (names (host s))
    /\ (Inv (host s) -> Inv (host s')).
Proof.
  induction l as [| n l IH]; intros s s' E; simpl in E.
  - apply ret_Ok in E. destruct E as [_ ->]. auto.
  - apply bind_Ok in E. destruct E as ([] & s1 & E1 & E2).
    apply bind_Ok in E1. destruct E1 as (c & s2 & Ec & E1).
    apply read_Ok in Ec. destruct Ec as [-> ->].
    apply bind_Ok in E1. destruct E1 as (c & s2 & Ec & E1).
    apply item_of_Ok in Ec. destruct Ec as [Hc ->].
    apply get_name in Hc. subst c.
    apply op_Ok in E1. destruct E1 as [P _].
    assert (R : returns (rm n) (host s) (host s1)) by (eexists; exact P).
    destruct (IH _ _ E2) as [Hn Hi]. split.
    + rewrite Hn. simpl. rewrite (rm_names _ _ _ R). reflexivity.
    + intro I. apply Hi. eapply rm_keeps; eauto.
Qed.

End Remove_loop.

Lemma fold_remove_all (l : list string) :
  forall cur, incl cur l ->
    fold_left (fun acc n => remove string_dec n acc) l cur = [].
Proof.
  induction l as [| n l IH]; intros cur Hin; simpl.
  - destruct cur as [| x cur]; [reflexivity |].
    exfalso. apply (Hin x). left. reflexivity.
  - apply IH. intros x Hx. apply in_remove in Hx. destruct Hx as [Hx Hne].
    destruct (Hin x Hx) as [-> | Hl]; [contradiction | exact Hl].
Qed.

Lemma incl_nil_eq {A} (l : list A) : incl l [] -> l = [].
Proof.
  destruct l as [| x l]; [reflexivity |].
  intro Hin. exfalso. apply (Hin x). left. reflexivity.
Qed.

Section Cleanup.

Context {H : Host}.
Hypothesis K : cleanup_contract.

Lemma op_returns {R} (c : Op R) s v s' :
  op c s = (Ok v, s') -> returns c (host s) (host s').
Proof. intro E. apply op_Ok in E. destruct E as [P _]. eexists. exact P. Qed.

Lemma unhide_object (o : obj) s s' :
  (op (obj_hide_set o false) ;; op (set_obj_hide_select o false) ;;
   op (set_obj_hide_viewport o false)) s = (Ok tt, s') ->
  objs (host s') = objs (host s)
  /\ selectable (host s') o = true
  /\ (forall o', selectable (host s) o' = true -> selectable (host s') o' = true).
Proof.
  intro E.
  apply bind_Ok in E. destruct E as ([] & s1 & E1 & E).
  apply bind_Ok in E. destruct E as ([] & s2 & E2 & E3).
  apply op_returns in E1, E2, E3.
  destruct (hide_set_spec K _ _ _ _ E1) as (O1 & A1 & B1 & C1 & D1).
  destruct (hide_select_spec K _ _ _ _ E2) as (O2 & A2 & B2 & C2 & D2).
  destruct (hide_viewport_spec K _ _ _ _ E3) as (O3 & A3 & B3 & C3 & D3).
  split; [congruence |].
  assert (G : forall o', observe (obj_hide_get o') (host s1) = false ->
                         observe (obj_hide_select o') (host s2) = false ->
                         observe (obj_hide_viewport o') (host s') = false ->
                         selectable (host s') o' = true).
  { intros o' G1 G2 G3. unfold selectable.
    rewrite C3, C2, G1, D3, G2, G3. reflexivity. }
  split.
  - apply G; assumption.
  - intros o' S. unfold selectable in S.
    apply andb_prop in S. destruct S as [S S3].
    apply andb_prop in S. destruct S as [S1 S2].
    apply negb_true_iff in S1, S2, S3.
    destruct (Nat.eq_dec o' o) as [-> | Hne]; [apply G; assumption |].
    apply G.
    + rewrite B1; assumption.
    + rewrite B2 by assumption. rewrite C1. assumption.
    + rewrite B3 by assumption. rewrite D2, D1. assumption.
Qed.

Lemma unhide_loop (l : list obj) :
  forall s s',
    for_each l (fun o =>
      op (obj_hide_set o false) ;; op (set_obj_hide_select o false) ;;
      op (set_obj_hide_viewport o false)) s = (Ok tt, s') ->
    objs (host s') = objs (host s)
    /\ (forall o, In o l \/ selectable (host s) o = true ->
          selectable (host s') o = true).
Proof.
  induction l as [| x l IH]; intros s s' E; simpl in E.
  - apply ret_Ok in E. destruct E as [_ ->]. split; [reflexivity |].
    intros o [[] | S]; exact S.
  - apply bind_Ok in E. destruct E as ([] & s1 & E1 & E2).
    destruct (unhide_object _ _ _ E1) as (O1 & Sx & Sk).
    destruct (IH _ _ E2) as (O2 & Sl).
    split; [congruence |].
    intros o [[-> | Hin] | S]; apply Sl; auto.
Qed.

Lemma purge_call_keeps_cleaned kw w w' :
  returns (ops_outliner_orphans_purge kw) w w' -> cleaned w -> cleaned w'.
Proof.
  intros R (Ho & Hc & Hw & Hs).
  destruct (purge_spec K _ _ _ R) as (Ps & (keep & Pf) & Pu).
  repeat split.
  - apply incl_nil_eq. rewrite <- Ho.
    apply (no_new_objects K _ (ops_outliner_orphans_purge kw) _ _ eq_refl R).
  - apply incl_nil_eq. rewrite <- Hc.
    apply (no_new_collections K _ (ops_outliner_orphans_purge kw) _ _ eq_refl R).
  - specialize (Pu "World" Hs). rewrite Hw in Pu, Pf.
    specialize (Pu (or_introl eq_refl)). rewrite Pf in *. simpl in *.
    destruct (keep "World"); [reflexivity | destruct Pu].
  - congruence.
Qed.

Lemma purge_orphans_keeps_cleaned fuel :
  forall s s', purge_orphans fuel s = (Ok tt, s') ->
    cleaned (host s) -> cleaned (host s').
Proof.
  induction fuel as [| n IH]; intros s s' E C; [discriminate |].
  destruct (tuple_ge (observe app_version (host s)) (3, 0, 0)%Z) eqn:V.
  - rewrite (purge_orphans_new _ _ V) in E.
    apply bind_Ok in E. destruct E as (st & s1 & E1 & E2).
    apply ret_Ok in E2. destruct E2 as [_ ->].
    eapply purge_call_keeps_cleaned; [eapply op_returns; exact E1 | exact C].
  - rewrite (purge_orphans_old _ _ V) in E.
    destruct (perform (ops_outliner_orphans_purge []) (host s))
      as [[e | st] w'] eqn:P; [discriminate |].
    assert (C' : cleaned w')
      by (eapply purge_call_keeps_cleaned; [eexists; exact P | exact C]).
    cbv zeta in E. destruct (String.eqb st "CANCELLED").
    + inversion E; subst. exact C'.
    + eapply IH; [exact E | exact C'].
Qed.

End Cleanup.

Section Cleanup_theorem.

Context {H : Host}.
Hypothesis K : cleanup_contract.

Lemma data_call_keeps_emptied {R} (c : Op R) w w' :
  data_call c = true -> returns c w w' -> emptied w -> emptied w'.
Proof.
  intros D Rt [Ho Hc]. split; apply incl_nil_eq.
  - rewrite <- Ho. apply (no_new_objects K _ c _ _ D Rt).
  - rewrite <- Hc. apply (no_new_collections K _ c _ _ D Rt).
Qed.

Lemma clean_scene_body_cleans s s8 :
  clean_scene_body s = (Ok tt, s8) ->
  cleaned (host s8)
  /\ exists s6 s7 status,
       observe data_world_names (host s6) = []
       /\ op ops_world_new s6 = (Ok status, s7)
       /\ op (set_scene_world "World") s7 = (Ok tt, s8).
Proof.
  unfold clean_scene_body. intro E.
  apply bind_Ok in E. destruct E as (a & s0 & Ea & E).
  apply read_Ok in Ea. destruct Ea as [-> ->].
  apply bind_Ok in E. destruct E as ([] & s1 & _ & E).
  apply bind_Ok in E. destruct E as (l & s0 & El & E).
  apply read_Ok in El. destruct El as [-> ->].
  apply bind_Ok in E. destruct E as ([] & s2 & Ehide & E).
  apply bind_Ok in E. destruct E as (st3 & s3 & Esel & E).
  apply bind_Ok in E. destruct E as (st4 & s4 & Edel & E).
  apply bind_Ok in E. destruct E as (cn & s0 & Ecn & E).
  apply read_Ok in Ecn. destruct Ecn as [-> ->].
  apply bind_Ok in E. destruct E as ([] & s5 & Ecrm & E).
  apply bind_Ok in E. destruct E as (wn & s0 & Ewn & E).
  apply read_Ok in Ewn. destruct Ewn as [-> ->].
  apply bind_Ok in E. destruct E as ([] & s6 & Ewrm & E).
  apply bind_Ok in E. destruct E as (st7 & s7 & Enew & E).
  apply bind_Ok in E. destruct E as (x & s0 & Ex & E).
  apply read_Ok in Ex. destruct Ex as [-> ->].
  apply bind_Ok in E. destruct E as (x & s0 & Ex & E).
  apply item_of_Ok in Ex. destruct Ex as [Hx ->].
  apply (worlds_get_spec K) in Hx. subst x.
  (* every object is made selectable, selected, and deleted *)
  destruct (unhide_loop K _ _ _ Ehide) as [O2 S2].
  destruct (select_all_spec K _ _ (op_returns _ _ _ _ Esel)) as [O3 S3].
  assert (O4 : objs (host s4) = []).
  { destruct (objs (host s4)) as [| o rest] eqn:Eo; [reflexivity | exfalso].
    destruct (delete_spec K _ _ (op_returns _ _ _ _ Edel) o) as [Hin Hsel].
    { rewrite Eo. left. reflexivity. }
    rewrite O3 in Hin. rewrite S3 in Hsel; [discriminate | exact Hin |].
    apply S2. left. fold (objs (host s1)). rewrite <- O2. exact Hin. }
  (* the collections go one by one *)
  destruct (remove_loop (fun w => observe data_collection_names w)
              data_collections_get data_collections_remove
              (fun w => objs w = [])
              (collections_get_spec K) (collections_remove_spec K)
              (fun x w w' Rt Ho =>
                 incl_nil_eq _
                   (eq_ind _ (fun l => incl (objs w') l)
                      (no_new_objects K _ (data_collections_remove x) _ _ eq_refl Rt)
                      _ Ho))
              _ _ _ Ecrm) as [C5 O5].
  rewrite fold_remove_all in C5 by apply incl_refl.
  specialize (O5 O4).
  assert (M5 : emptied (host s5)) by (split; assumption).
  (* the worlds go one by one *)
  destruct (remove_loop (fun w => observe data_world_names w)
              data_worlds_get data_worlds_remove emptied
              (worlds_get_spec K) (worlds_remove_spec K)
              (fun x w w' Rt => data_call_keeps_emptied (data_worlds_remove x) w w' eq_refl Rt)
              _ _ _ Ewrm) as [W6 M6].
  rewrite fold_remove_all in W6 by apply incl_refl.
  specialize (M6 M5).
  (* a new world, which is the world of the scene *)
  pose proof (op_returns _ _ _ _ Enew) as Rnew.
  pose proof (op_returns _ _ _ _ E) as Rset.
  assert (W7 : observe data_world_names (host s7) = ["World"]).
  { rewrite (world_new_spec K _ _ Rnew); rewrite W6; [reflexivity | intros []]. }
  destruct (set_scene_world_spec K _ _ _ Rset) as [W8 U8].
  destruct (data_call_keeps_emptied (set_scene_world "World") _ _ eq_refl Rset
              (data_call_keeps_emptied ops_world_new _ _ eq_refl Rnew M6)) as [O8 C8].
  split.
  - repeat split; [exact O8 | exact C8 | congruence | exact U8].
  - exists s6, s7, st7. repeat split; assumption.
Qed.

(** C6.  On a host that keeps to [cleanup_contract], whenever
    [clean_scene] returns: no active object is in Edit Mode; there are no
    objects and no collections; the script reached a state without any world,
    created a new world there and made it the world of the scene, and the
    worlds are now exactly that one world, named "World"; and
    [purge_orphans] ran as the last step. *)
Theorem clean_scene_postcondition (fuel : nat) (s s' : St) :
  clean_scene fuel s = (Ok tt, s') ->
  (forall o, observe context_active_object (host s') = Some o ->
             observe (obj_mode o) (host s') <> "EDIT")
  /\ observe data_objects (host s') = []
  /\ observe data_collection_names (host s') = []
  /\ observe data_world_names (host s') = ["World"]
  /\ observe scene_world (host s') = Some "World"
  /\ exists s6 s7 s8 status,
       observe data_world_names (host s6) = []
       /\ op ops_world_new s6 = (Ok status, s7)
       /\ op (set_scene_world "World") s7 = (Ok tt, s8)
       /\ clean_scene_body s = (Ok tt, s8)
       /\ purge_orphans fuel s8 = (Ok tt, s').
Proof.
  unfold clean_scene. intro E.
  apply bind_Ok in E. destruct E as ([] & s8 & Eb & Ep).
  destruct (clean_scene_body_cleans _ _ Eb) as (C8 & s6 & s7 & st & W6 & Enew & Eset).
  destruct (purge_orphans_keeps_cleaned K _ _ _ Ep C8) as (Ho & Hc & Hw & Hs).
  repeat split; try assumption.
  - intros o Ha. apply (active_is_object K) in Ha. rewrite Ho in Ha. destruct Ha.
  - exists s6, s7, s8, st. repeat split; assumption.
Qed.

End Cleanup_theorem.

(** ** The reference host keeps to the contract *)

Section Mini_contract.

Lemma mem_In (x : string) (l : list string) : Mini.mem x l = true <-> In x l.
Proof.
  unfold Mini.mem. rewrite existsb_exists. split.
  - intros (y & Hy & E). apply String.eqb_eq in E. subst. exact Hy.
  - intro Hx. exists x. split; [exact Hx | apply String.eqb_refl].
Qed.

Lemma has_obj_In (w : Mini.state) (o : obj) : Mini.has_obj w o = true -> In o (Mini.objects (Mini.sc w)).
Proof.
  unfold Mini.has_obj. rewrite existsb_exists.
  intros (y & Hy & E). apply Nat.eqb_eq in E. subst. exact Hy.
Qed.

Lemma filter_true {A} (l : list A) : filter (fun _ => true) l = l.
Proof. induction l; simpl; congruence. Qed.

Lemma unused_of_used (b : Mini.blend) :
  filter (fun n => match Mini.world_in_use b with
                   | Some u => negb (String.eqb n u)
                   | None => true
                   end) (Mini.used_worlds b) = [].
Proof.
  unfold Mini.used_worlds. induction (Mini.worlds b) as [| n l IH]; simpl; [reflexivity |].
  destruct (Mini.world_in_use b) as [u |]; [| exact IH].
  destruct (String.eqb n u) eqn:E; simpl; [rewrite E; simpl |]; exact IH.
Qed.

Lemma count_after_purge (w : Mini.state) (r : bool) :
  Mini.count_orphans (Mini.purge w r) = if r then 0 else pred (Mini.orphans (Mini.bl w)).
Proof.
  unfold Mini.count_orphans, Mini.purge, Mini.unused_worlds. simpl.
  rewrite unused_of_used. simpl. rewrite Nat.add_0_r. reflexivity.
Qed.

Lemma mini_purge_decreases :
  forall (w : @world mini_host) status w',
    @perform mini_host _ (ops_outliner_orphans_purge []) w = (inr status, w') ->
    status <> "CANCELLED" ->
    @observe mini_host _ orphan_count w' < @observe mini_host _ orphan_count w.
Proof.
  intros w status w' P Hs. simpl in *.
  destruct (Nat.eqb (Mini.count_orphans w) 0) eqn:Z; inversion P; subst; [contradiction |].
  rewrite count_after_purge. simpl. apply Nat.eqb_neq in Z.
  unfold Mini.count_orphans in *. destruct (Mini.orphans (Mini.bl w)); simpl in *; lia.
Qed.

Lemma mini_purge_cancelled :
  forall (w w' : @world mini_host),
    @perform mini_host _ (ops_outliner_orphans_purge []) w = (inr "CANCELLED", w') ->
    @observe mini_host _ orphan_count w' = 0.
Proof.
  intros w w' P. simpl in *.
  destruct (Nat.eqb (Mini.count_orphans w) 0) eqn:Z; inversion P; subst.
  apply Nat.eqb_eq. exact Z.
Qed.

Lemma mini_purge_recursive :
  forall (w : @world mini_host) status w',
    @perform mini_host _ (ops_outliner_orphans_purge purge_kw) w = (inr status, w') ->
    @observe mini_host _ orphan_count w' = 0.
Proof.
  intros w status w' P. simpl in *.
  destruct (Nat.eqb (Mini.count_orphans w) 0) eqn:Z; inversion P; subst.
  - apply Nat.eqb_eq. exact Z.
  - apply count_after_purge.
Qed.

End Mini_contract.

Section Mini_cleanup.

Ltac mini_returns R P :=
  destruct R as [? P]; simpl in P.

Lemma mini_flag_write (w : Mini.state) (o : obj) (name : string) (b : bool) :
  Mini.objects (Mini.sc (Mini.set_flag w o name b)) = Mini.objects (Mini.sc w)
  /\ Mini.flag (Mini.sc (Mini.set_flag w o name b)) o name = b
  /\ (forall o', o' <> o ->
        Mini.flag (Mini.sc (Mini.set_flag w o name b)) o' name
        = Mini.flag (Mini.sc w) o' name)
  /\ (forall o' n, n <> name ->
        Mini.flag (Mini.sc (Mini.set_flag w o name b)) o' n
        = Mini.flag (Mini.sc w) o' n).
Proof.
  unfold Mini.set_flag. simpl. repeat split.
  - rewrite Nat.eqb_refl, String.eqb_refl. reflexivity.
  - intros o' Hne. apply Nat.eqb_neq in Hne. rewrite Hne. reflexivity.
  - intros o' n Hne. apply String.eqb_neq in Hne. rewrite Hne, andb_false_r.
    reflexivity.
Qed.

Lemma mini_data_call_scene {R} (c : Op R) (w w' : Mini.state) :
  data_call c = true ->
  @returns mini_host _ c w w' ->
  Mini.sc w' = Mini.sc w
  /\ incl (Mini.collections (Mini.bl w')) (Mini.collections (Mini.bl w)).
Proof.
  intros D Rt. destruct Rt as [r P].
  destruct c; try discriminate D; simpl in P.
  - destruct (Nat.eqb (Mini.count_orphans w) 0); inversion P; subst;
      split; try reflexivity; apply incl_refl.
  - inversion P; subst. split; [reflexivity | apply incl_refl].
  - destruct (Mini.mem c (Mini.collections (Mini.bl w))); inversion P; subst.
    split; [reflexivity |]. simpl.
    intros x Hx. apply in_remove in Hx. apply Hx.
  - destruct (Mini.mem w0 (Mini.worlds (Mini.bl w))); inversion P; subst.
    split; [reflexivity | apply incl_refl].
  - destruct (Mini.mem w0 (Mini.worlds (Mini.bl w))); inversion P; subst.
    split; [reflexivity | apply incl_refl].
Qed.

Lemma mini_cleanup_contract : @cleanup_contract mini_host.
Proof.
  constructor.
  - (* active_is_object *)
    intros w o Ha. simpl in Ha. unfold Mini.get_active in Ha.
    destruct (Mini.active (Mini.sc w)) as [a |]; [| discriminate].
    destruct (Mini.has_obj w a) eqn:Ho; inversion Ha; subst.
    apply has_obj_In. exact Ho.
  - (* hide_set *)
    intros o b w w' Rt. destruct Rt as [r P]. simpl in P.
    destruct (Mini.has_obj w o); inversion P; subst.
    destruct (mini_flag_write w o "hide" b) as (F1 & F2 & F3 & F4).
    split; [exact F1 |]. split; [exact F2 |]. split; [exact F3 |].
    split; intro; apply F4; discriminate.
  - (* hide_select *)
    intros o b w w' Rt. destruct Rt as [r P]. simpl in P.
    destruct (Mini.has_obj w o); inversion P; subst.
    destruct (mini_flag_write w o "hide_select" b) as (F1 & F2 & F3 & F4).
    split; [exact F1 |]. split; [exact F2 |]. split; [exact F3 |].
    split; intro; apply F4; discriminate.
  - (* hide_viewport *)
    intros o b w w' Rt. destruct Rt as [r P]. simpl in P.
    destruct (Mini.has_obj w o); inversion P; subst.
    destruct (mini_flag_write w o "hide_viewport" b) as (F1 & F2 & F3 & F4).
    split; [exact F1 |]. split; [exact F2 |]. split; [exact F3 |].
    split; intro; apply F4; discriminate.
  - (* select_all *)
    intros w w' Rt. destruct Rt as [r P]. simpl in P. inversion P; subst.
    split; [reflexivity |]. intros o Hin Hs. simpl.
    assert (Ho : Mini.has_obj w o = true).
    { unfold Mini.has_obj. apply existsb_exists. exists o.
      split; [exact Hin | apply Nat.eqb_refl]. }
    rewrite Ho. unfold selectable in Hs. simpl in Hs.
    unfold Mini.selectable. rewrite Hs. reflexivity.
  - (* delete *)
    intros w w' Rt o Hin. destruct Rt as [r P]. simpl in P. inversion P; subst.
    unfold objs in Hin. simpl in Hin. apply filter_In in Hin.
    destruct Hin as [Hin Hs]. split; [exact Hin |].
    simpl. apply negb_true_iff. exact Hs.
  - (* no_new_objects *)
    intros R c w w' D Rt. destruct (mini_data_call_scene c w w' D Rt) as [E _].
    unfold objs. simpl. rewrite E. apply incl_refl.
  - (* no_new_collections *)
    intros R c w w' D Rt. destruct (mini_data_call_scene c w w' D Rt) as [_ I].
    exact I.
  - (* collections_get *)
    intros name w c E. simpl in E.
    destruct (Mini.mem name (Mini.collections (Mini.bl w))); inversion E; reflexivity.
  - (* collections_remove *)
    intros c w w' Rt. destruct Rt as [r P]. simpl in P.
    destruct (Mini.mem c (Mini.collections (Mini.bl w))); inversion P; subst.
    reflexivity.
  - (* worlds_get *)
    intros name w c E. simpl in E.
    destruct (Mini.mem name (Mini.worlds (Mini.bl w))); inversion E; reflexivity.
  - (* worlds_remove *)
    intros c w w' Rt. destruct Rt as [r P]. simpl in P.
    destruct (Mini.mem c (Mini.worlds (Mini.bl w))); inversion P; subst.
    reflexivity.
  - (* world_new *)
    intros w w' Rt Hfree. destruct Rt as [r P]. simpl in P. inversion P; subst.
    simpl. unfold Mini.fresh_world_name.
    destruct (Mini.mem "World" (Mini.worlds (Mini.bl w))) eqn:M; [| reflexivity].
    apply mem_In in M. contradiction.
  - (* set_scene_world *)
    intros x w w' Rt. destruct Rt as [r P]. simpl in P.
    destruct (Mini.mem x (Mini.worlds (Mini.bl w))); inversion P; subst.
    split; reflexivity.
  - (* purge *)
    intros kw w w' Rt. destruct Rt as [r P]. simpl in P.
    destruct (Nat.eqb (Mini.count_orphans w) 0); inversion P; subst.
    + split; [reflexivity |]. split.
      * exists (fun _ => true). symmetry. apply filter_true.
      * auto.
    + split; [reflexivity |]. split.
      * eexists. simpl. unfold Mini.used_worlds. reflexivity.
      * intros x Hu Hin. simpl in *. unfold Mini.used_worlds.
        apply filter_In. split; [exact Hin |]. rewrite Hu. apply String.eqb_refl.
Qed.

End Mini_cleanup.

(** ** Runs on the reference host *)

Section Runs.

Example purge_below_3_repeats :
  let r := @purge_orphans mini_host 4 (orphaned_state (2, 83, 0)%Z) in
  fst r = Ok tt
  /\ calls (snd r) = repeat (Logged (ops_outliner_orphans_purge [])) 4.
Proof. vm_compute. split; reflexivity. Qed.

Example purge_below_3_needs_fuel :
  fst (@purge_orphans mini_host 3 (orphaned_state (2, 83, 0)%Z)) = OutOfFuel.
Proof. vm_compute. reflexivity. Qed.

Example create_mesh_cube_adds :
  let r := @create_mesh mini_host "CUBE" zero3 (start_state (3, 6, 0)%Z) in
  fst r = Ok (Some 4)
  /\ calls (snd r) = [Logged (ops_mesh_primitive_cube_add zero3)].
Proof. vm_compute. split; reflexivity. Qed.

Example create_link_absent_socket :
  let s := start_state (3, 6, 0)%Z in
  @create_link mini_host 1 0 "Nope" 1 "Surface" s = (Raise (KeyError "Nope"), s).
Proof. reflexivity. Qed.

(** C1 fails on the start-up scene: [main] returns normally, and afterwards
    the scene has no object at all, so none that carries a Geometry Nodes
    modifier; no node was created and no keyframe inserted. *)
Lemma main_builds_no_node_graph :
  fst main_run = Ok tt
  /\ ~ @has_geometry_nodes mini_host (host (snd main_run))
  /\ @observe mini_host _ data_objects (host (snd main_run)) = []
  /\ Mini.keys (Mini.bl (host (snd main_run))) = []
  /\ (forall nt ty, ~ In (Logged (nodes_new nt ty)) (calls (snd main_run))).
Proof.
  split; [vm_compute; reflexivity |].
  split.
  - intros (o & Hin & _). vm_compute in Hin. exact Hin.
  - split; [vm_compute; reflexivity |].
    split; [vm_compute; reflexivity |].
    intros nt ty Hin.
    assert (F : forallb setup_call (calls (snd main_run)) = true)
      by (vm_compute; reflexivity).
    rewrite forallb_forall in F. apply F in Hin. discriminate.
Qed.

Lemma create_mesh_unknown_type_witness :
  @create_mesh mini_host "TORUS" zero3 (start_state (3, 6, 0)%Z)
  = (Ok (Some 1), start_state (3, 6, 0)%Z)
  /\ @observe mini_host _ data_objects
       (host (snd (@create_mesh mini_host "TORUS" zero3 (start_state (3, 6, 0)%Z))))
     = [1; 2; 3].
Proof.
  apply (@create_mesh_unknown_type mini_host "TORUS" zero3 (start_state (3, 6, 0)%Z));
    discriminate.
Defined.

Lemma move_scale_object_raise_witness :
  (forall w, @observe mini_host _ (bpy_attr "Vector") w = None)
  /\ @move_object mini_host 1 up2 (start_state (3, 6, 0)%Z)
     = (Raise (AttributeError "bpy" "Vector"), start_state (3, 6, 0)%Z)
  /\ @scale_object mini_host 1 up2 (start_state (3, 6, 0)%Z)
     = (Raise (AttributeError "bpy" "Vector"), start_state (3, 6, 0)%Z).
Proof.
  split; [reflexivity |].
  destruct (@move_scale_object_raise mini_host (fun w => eq_refl) 1 up2
              (start_state (3, 6, 0)%Z)) as (A & B & _).
  split; [exact A | exact B].
Defined.

Lemma scene_setup_time_seed_witness :
  let s := start_state (3, 6, 0)%Z in
  let t := PFloat (1700000000 # 1) in
  let s1 := snd (@time_seed mini_host s) in
  @time_seed mini_host s = (Ok t, s1)
  /\ calls s1 = [Logged time_time; Logged (py_print "seed: 1700000000/1");
                 Logged (random_seed t); Logged (set_clipboard "1700000000/1")]
  /\ Mini.clipboard (Mini.rt (host s1)) = "1700000000/1".
Proof.
  intros s t s1.
  assert (E : @time_seed mini_host s = (Ok t, s1)) by (vm_compute; reflexivity).
  split; [exact E |].
  destruct (@scene_setup_time_seed mini_host 1 s) as [_ W].
  destruct (W t s1 E) as (_ & C & _).
  split; [exact C | vm_compute; reflexivity].
Defined.

(** C7 fails on the reference host in two ways.  Into an input socket that
    has a link, [create_link] returns normally and the tree still has one
    link: the link that was there is gone, so something else in the tree
    has changed.  For a name that selects no socket, [create_link] raises
    and the tree has no new link. *)
Lemma create_link_is_not_always_one_more_link :
  (fst (@create_link mini_host 1 2 "Emission" 1 "Surface" shader_state) = Ok tt
   /\ mini_links (host shader_state) 1 = [(2, 3)]
   /\ mini_links
        (host (snd (@create_link mini_host 1 2 "Emission" 1 "Surface" shader_state))) 1
      = [(4, 3)])
  /\ (fst (@create_link mini_host 1 2 "Nope" 1 "Surface" shader_state)
      = Raise (KeyError "Nope")
      /\ mini_links
           (host (snd (@create_link mini_host 1 2 "Nope" 1 "Surface" shader_state))) 1
         = [(2, 3)]).
Proof. vm_compute. repeat split; reflexivity. Qed.

Lemma filter_filter_free (nt : ntree) (b : socket)
    (l : list (ntree * socket * socket)) :
  (forall a', ~ In (a', b)
     (map (fun x : ntree * socket * socket => (snd (fst x), snd x))
        (filter (fun x : ntree * socket * socket => Nat.eqb (fst (fst x)) nt) l))) ->
  filter (fun x : ntree * socket * socket => Nat.eqb (fst (fst x)) nt)
    (filter (fun x : ntree * socket * socket => negb (Nat.eqb (snd x) b)) l)
  = filter (fun x : ntree * socket * socket => Nat.eqb (fst (fst x)) nt) l.
Proof.
  induction l as [| [[t a'] b'] l IH]; intro Hfree; simpl in *; [reflexivity |].
  destruct (Nat.eqb t nt) eqn:T; simpl in *.
  - destruct (Nat.eqb b' b) eqn:B; simpl.
    + apply Nat.eqb_eq in B. subst b'. exfalso.
      apply (Hfree a'). left. reflexivity.
    + rewrite T. f_equal. apply IH. intros x Hx. apply (Hfree x). right. exact Hx.
  - destruct (Nat.eqb b' b); simpl; [| rewrite T]; apply IH; exact Hfree.
Qed.

Lemma mini_links_new_free :
  forall nt a b (w w' : @world mini_host) l,
    @perform mini_host _ (links_new nt a b) w = (inr l, w') ->
    (forall a', ~ In (a', b) (mini_links w nt)) ->
    mini_links w' nt = mini_links w nt ++ [(a, b)].
Proof.
  intros nt a b w w' l P Hfree. simpl in P. inversion P; subst. clear P.
  unfold mini_links in *. simpl.
  rewrite filter_app, map_app. simpl. rewrite Nat.eqb_refl. simpl.
  rewrite filter_filter_free by exact Hfree. reflexivity.
Qed.

Lemma create_node_create_link_thin_wrappers_witness :
  let s := shader_state in
  let s' := snd (@create_link mini_host 1 2 "Emission" 0 "Color" s) in
  @create_link mini_host 1 2 "Emission" 0 "Color" s = (Ok tt, s')
  /\ calls s' = [Logged (links_new 1 4 0)]
  /\ mini_links (host s) 1 = [(2, 3)]
  /\ mini_links (host s') 1 = [(2, 3); (4, 0)].
Proof.
  intros s s'.
  assert (E : @create_link mini_host 1 2 "Emission" 0 "Color" s = (Ok tt, s'))
    by (vm_compute; reflexivity).
  split; [exact E |].
  destruct (@create_node_create_link_thin_wrappers mini_host) as (_ & _ & W).
  destruct (W 1 2 "Emission" 0 "Color" s s' E)
    as (a & b & l & Ha & Hb & _ & C & _ & L).
  vm_compute in Ha. inversion Ha; subst a.
  vm_compute in Hb. inversion Hb; subst b.
  split; [exact C |]. split; [reflexivity |].
  apply (L mini_links (mini_links_new_free 1 4 0)).
  intros a' Hin. vm_compute in Hin. destruct Hin as [Hin | []]. discriminate.
Defined.

Lemma purge_orphans_recursion_witness :
  calls (snd (@purge_orphans mini_host 1 (orphaned_state (3, 6, 0)%Z)))
  = [Logged (ops_outliner_orphans_purge
               [("do_local_ids", true); ("do_linked_ids", true); ("do_recursive", true)])]
  /\ @purge_orphans mini_host 4 (orphaned_state (2, 83, 0)%Z)
     = @purge_orphans mini_host 3
         (@mkSt mini_host
            (Mini.purge (Mini.upd_blend (Mini.startup (2, 83, 0)%Z) (Mini.put_orphans 3))
               false)
            [Logged (ops_outliner_orphans_purge [])])
  /\ fst (@purge_orphans mini_host 4 (orphaned_state (2, 83, 0)%Z)) <> OutOfFuel.
Proof.
  destruct (@purge_orphans_recursion mini_host) as (A & B & C).
  split; [| split].
  - destruct (A 0 (orphaned_state (3, 6, 0)%Z) eq_refl) as [_ A2]. exact A2.
  - exact (B 3 (orphaned_state (2, 83, 0)%Z) eq_refl).
  - apply (C mini_purge_decreases). vm_compute. lia.
Defined.

Lemma purge_orphans_leaves_no_orphans_witness :
  let s := orphaned_state (2, 83, 0)%Z in
  let s' := snd (@purge_orphans mini_host 4 s) in
  @observe mini_host _ orphan_count (host s) = 3
  /\ @purge_orphans mini_host 4 s = (Ok tt, s')
  /\ @observe mini_host _ orphan_count (host s') = 0.
Proof.
  intros s s'.
  assert (E : @purge_orphans mini_host 4 s = (Ok tt, s')) by (vm_compute; reflexivity).
  split; [reflexivity |]. split; [exact E |].
  exact (@purge_orphans_leaves_no_orphans mini_host
           mini_purge_cancelled mini_purge_recursive 4 s s' E).
Defined.


Lemma clean_scene_postcondition_witness :
  fst clean_run = Ok tt
  /\ @observe mini_host _ data_objects (host (snd clean_run)) = []
  /\ @observe mini_host _ data_collection_names (host (snd clean_run)) = []
  /\ @observe mini_host _ data_world_names (host (snd clean_run)) = ["World"]
  /\ @observe mini_host _ scene_world (host (snd clean_run)) = Some "World".
Proof.
  split; [vm_compute; reflexivity |].
  assert (E : @clean_scene mini_host 5 (start_state (2, 83, 0)%Z)
              = (Ok tt, snd clean_run)) by (vm_compute; reflexivity).
  destruct (@clean_scene_postcondition mini_host mini_cleanup_contract 5 _ _ E)
    as (_ & A & B & C & D & _).
  repeat split; assumption.
Defined.

End Runs.

(** ** More about the purge *)

Section Purge_more.

Context {H : Host}.

Lemma tuple_ge_major (a b c : Z) :
  (0 <= b)%Z -> (0 <= c)%Z -> tuple_ge (a, b, c) (3, 0, 0)%Z = Z.leb 3 a.
Proof.
  intros Hb Hc. unfold tuple_ge.
  destruct (Z.eqb a 3) eqn:Ea.
  - apply Z.eqb_eq in Ea. subst a.
    destruct (Z.eqb b 0) eqn:Eb.
    + apply Z.leb_le in Hc. rewrite Hc. reflexivity.
    + apply Z.eqb_neq in Eb.
      assert (Hl : (0 <? b)%Z = true) by (apply Z.ltb_lt; lia).
      rewrite Hl. reflexivity.
  - apply Z.eqb_neq in Ea.
    destruct (Z.ltb 3 a) eqn:El.
    + apply Z.ltb_lt in El. symmetry. apply Z.leb_le. lia.
    + apply Z.ltb_ge in El. symmetry. apply Z.leb_gt. lia.
Qed.

(** X1.  With a version [(a, b, c)] whose minor and patch numbers are not
    negative, [purge_orphans] takes the single recursive purge exactly when
    the major number is at least 3: then its only call is the purge with
    the three keywords; otherwise its first call is the plain purge. *)
Theorem purge_orphans_branch_by_major (fuel : nat) (s : St) (a b c : Z) :
  observe app_version (host s) = (a, b, c) ->
  (0 <= b)%Z -> (0 <= c)%Z ->
  ((3 <= a)%Z ->
     calls (snd (purge_orphans (S fuel) s))
     = calls s ++ [Logged (ops_outliner_orphans_purge purge_kw)])
  /\ ((a < 3)%Z ->
     exists d, calls (snd (purge_orphans (S fuel) s))
               = calls s ++ Logged (ops_outliner_orphans_purge []) :: d).
Proof.
  intros V Hb Hc.
  pose proof (tuple_ge_major a b c Hb Hc) as T. rewrite <- V in T.
  split; intro Ha.
  - assert (G : tuple_ge (observe app_version (host s)) (3, 0, 0)%Z = true)
      by (rewrite T; apply Z.leb_le; exact Ha).
    rewrite (purge_orphans_new _ _ G). unfold bind, op, ret.
    destruct (perform (ops_outliner_orphans_purge purge_kw) (host s)) as [[e | st] w'];
      reflexivity.
  - assert (G : tuple_ge (observe app_version (host s)) (3, 0, 0)%Z = false)
      by (rewrite T; apply Z.leb_gt; exact Ha).
    rewrite (purge_orphans_old _ _ G).
    destruct (perform (ops_outliner_orphans_purge []) (host s)) as [[e | st] w'].
    + exists []. reflexivity.
    + cbv zeta. destruct (String.eqb st "CANCELLED").
      * exists []. reflexivity.
      * destruct (purge_orphans_setup_calls fuel
                    (mkSt w' (calls s ++ [Logged (ops_outliner_orphans_purge [])])))
          as (d & Hd & _).
        exists d. rewrite Hd. simpl. rewrite <- app_assoc. reflexivity.
Qed.

Lemma purge_orphans_old_calls :
  (forall w status w',
      perform (ops_outliner_orphans_purge []) w = (inr status, w') ->
      observe app_version w' = observe app_version w) ->
  (forall w status w',
      perform (ops_outliner_orphans_purge []) w = (inr status, w') ->
      status <> "CANCELLED" ->
      observe orphan_count w' < observe orphan_count w) ->
  forall fuel s s',
    tuple_ge (observe app_version (host s)) (3, 0, 0)%Z = false ->
    purge_orphans fuel s = (Ok tt, s') ->
    exists k,
      1 <= k /\ k <= fuel /\ k <= S (observe orphan_count (host s))
      /\ calls s' = calls s ++ repeat (Logged (ops_outliner_orphans_purge [])) k.
Proof.
  intros Hv Hdec fuel. induction fuel as [| n IH]; intros s s' V E; [discriminate |].
  rewrite (purge_orphans_old _ _ V) in E.
  destruct (perform (ops_outliner_orphans_purge []) (host s))
    as [[e | st] w'] eqn:P; [discriminate |].
  cbv zeta in E. destruct (String.eqb st "CANCELLED") eqn:C.
  - inversion E; subst. exists 1. simpl. repeat split; lia.
  - apply String.eqb_neq in C.
    pose proof (Hdec _ _ _ P C) as D.
    apply IH in E; [| simpl; rewrite (Hv _ _ _ P); exact V].
    destruct E as (k & K1 & K2 & K3 & Kc). simpl in K3, Kc.
    exists (S k). repeat split; try lia.
    rewrite Kc. simpl. rewrite <- app_assoc. reflexivity.
Qed.

(** X2.  Below version 3.0.0, on a host where a plain purge leaves the
    version alone and every purge that is not cancelled lowers the number
    of orphan data blocks: when [purge_orphans] returns, all it has done is
    to call the plain purge [k] times in a row, with at least one call and
    at most one call more than there were orphan data blocks. *)
Theorem purge_orphans_call_count :
  (forall w status w',
      perform (ops_outliner_orphans_purge []) w = (inr status, w') ->
      observe app_version w' = observe app_version w) ->
  (forall w status w',
      perform (ops_outliner_orphans_purge []) w = (inr status, w') ->
      status <> "CANCELLED" ->
      observe orphan_count w' < observe orphan_count w) ->
  forall fuel s s',
    tuple_ge (observe app_version (host s)) (3, 0, 0)%Z = false ->
    purge_orphans fuel s = (Ok tt, s') ->
    exists k,
      1 <= k /\ k <= S (observe orphan_count (host s))
      /\ calls s' = calls s ++ repeat (Logged (ops_outliner_orphans_purge [])) k.
Proof.
  intros Hv Hdec fuel s s' V E.
  destruct (purge_orphans_old_calls Hv Hdec fuel s s' V E) as (k & K1 & _ & K3 & Kc).
  exists k. auto.
Qed.

End Purge_more.

(** ** More about the scene helpers *)

Section Scene_more.

Context {H : Host}.

(** X4.  [create_mesh] makes at most one call: for 'PLANE', 'CUBE' and
    'SPHERE' the plane, cube and UV-sphere operator with the location it
    was given.  When it returns an object, that is the object the host has
    active after the call; an error of the operator is the error of
    [create_mesh]. *)
Theorem create_mesh_one_primitive (mesh_type : string) (location : pyval) (s : St) :
  (mesh_type = "PLANE" ->
     calls (snd (create_mesh mesh_type location s))
     = calls s ++ [Logged (ops_mesh_primitive_plane_add location)])
  /\ (mesh_type = "CUBE" ->
     calls (snd (create_mesh mesh_type location s))
     = calls s ++ [Logged (ops_mesh_primitive_cube_add location)])
  /\ (mesh_type = "SPHERE" ->
     calls (snd (create_mesh mesh_type location s))
     = calls s ++ [Logged (ops_mesh_primitive_uv_sphere_add location)])
  /\ (forall o, fst (create_mesh mesh_type location s) = Ok o ->
        o = observe context_active_object (host (snd (create_mesh mesh_type location s))))
  /\ (forall e, fst (create_mesh mesh_type location s) = Raise e ->
        exists R (c : Op R) w,
          perform c (host s) = (inl e, w)
          /\ calls (snd (create_mesh mesh_type location s)) = calls s ++ [Logged c]).
Proof.
  unfold create_mesh, active_object.
  repeat split.
  - intros ->. simpl. unfold bind, op, ret, read.
    destruct (perform (ops_mesh_primitive_plane_add location) (host s)) as [[e | st] w];
      reflexivity.
  - intros ->. simpl. unfold bind, op, ret, read.
    destruct (perform (ops_mesh_primitive_cube_add location) (host s)) as [[e | st] w];
      reflexivity.
  - intros ->. simpl. unfold bind, op, ret, read.
    destruct (perform (ops_mesh_primitive_uv_sphere_add location) (host s)) as [[e | st] w];
      reflexivity.
  - intros o. unfold bind, op, ret, read.
    destruct (String.eqb mesh_type "PLANE");
      [destruct (perform (ops_mesh_primitive_plane_add location) (host s)) as [[e | st] w];
       simpl; intro E; inversion E; reflexivity |].
    destruct (String.eqb mesh_type "CUBE");
      [destruct (perform (ops_mesh_primitive_cube_add location) (host s)) as [[e | st] w];
       simpl; intro E; inversion E; reflexivity |].
    destruct (String.eqb mesh_type "SPHERE");
      [destruct (perform (ops_mesh_primitive_uv_sphere_add location) (host s))
         as [[e | st] w];
       simpl; intro E; inversion E; reflexivity |].
    simpl. intro E. inversion E. reflexivity.
  - intros e. unfold bind, op, ret, read.
    destruct (String.eqb mesh_type "PLANE");
      [destruct (perform (ops_mesh_primitive_plane_add location) (host s))
         as [[e' | st] w] eqn:P;
       simpl; intro E; inversion E; subst; eauto |].
    destruct (String.eqb mesh_type "CUBE");
      [destruct (perform (ops_mesh_primitive_cube_add location) (host s))
         as [[e' | st] w] eqn:P;
       simpl; intro E; inversion E; subst; eauto |].
    destruct (String.eqb mesh_type "SPHERE");
      [destruct (perform (ops_mesh_primitive_uv_sphere_add location) (host s))
         as [[e' | st] w] eqn:P;
       simpl; intro E; inversion E; subst; eauto |].
    simpl. intro E. inversion E.
Qed.

(** X5.  Without a world called "World", [set_scene_props] fails half way:
    it has already written [frame_end] when the lookup raises
    [KeyError], and the frame rate, the current frame and the start frame
    are not written. *)
Theorem set_scene_props_missing_world (fps frame_count : Z) (s : St) (w1 : world) :
  perform (set_scene_frame_end frame_count) (host s) = (inr tt, w1) ->
  observe (data_worlds_get "World") w1 = None ->
  set_scene_props fps frame_count s
  = (Raise (KeyError "World"),
     mkSt w1 (calls s ++ [Logged (set_scene_frame_end frame_count)])).
Proof.
  intros P W. unfold set_scene_props.
  unfold bind at 1. unfold op at 1. rewrite P.
  unfold bind at 1, read at 1. simpl host. rewrite W. reflexivity.
Qed.

(** X6.  When [set_scene_props] returns, it has written [frame_end], then
    the black background if the node tree of "World" has a node
    "Background" (and nothing in its place otherwise), then the frame rate,
    and then 1 to both the current and the start frame. *)
Theorem set_scene_props_calls (fps frame_count : Z) (s s' : St) :
  set_scene_props fps frame_count s = (Ok tt, s') ->
  exists w1 wd nt background,
    perform (set_scene_frame_end frame_count) (host s) = (inr tt, w1)
    /\ observe (data_worlds_get "World") w1 = Some wd
    /\ observe (world_node_tree wd) w1 = Some nt
    /\ (if observe (nodes_contains nt "Background") w1
        then exists n sock,
               observe (nodes_get nt "Background") w1 = Some n
               /\ observe (node_inputs_at n 0) w1 = Some sock
               /\ background =
                  [Logged (set_socket_default_value sock
                             (PTuple [PInt 0; PInt 0; PInt 0; PInt 1]))]
        else background = [])
    /\ calls s' = calls s ++ [Logged (set_scene_frame_end frame_count)]
                  ++ background
                  ++ [Logged (set_scene_render_fps fps);
                      Logged (set_scene_frame_current 1);
                      Logged (set_scene_frame_start 1)].
Proof.
  unfold set_scene_props. intro E.
  apply bind_Ok in E. destruct E as ([] & s1 & E1 & E).
  apply op_Ok in E1. destruct E1 as [P1 C1].
  apply bind_Ok in E. destruct E as (wd0 & s0 & Er & E).
  apply read_Ok in Er. destruct Er as [-> ->].
  apply bind_Ok in E. destruct E as (wd & s0 & Er & E).
  apply item_of_Ok in Er. destruct Er as [Hw ->].
  apply bind_Ok in E. destruct E as (nt0 & s0 & Er & E).
  apply read_Ok in Er. destruct Er as [-> ->].
  apply bind_Ok in E. destruct E as (nt & s0 & Er & E).
  apply attr_of_Ok in Er. destruct Er as [Hnt ->].
  apply bind_Ok in E. destruct E as (hb & s0 & Er & E).
  apply read_Ok in Er. destruct Er as [-> ->].
  apply bind_Ok in E. destruct E as ([] & s2 & Eb & E).
  apply bind_Ok in E. destruct E as ([] & s3 & E3 & E).
  apply bind_Ok in E. destruct E as ([] & s4 & E4 & E5).
  apply op_Ok in E3, E4, E5.
  destruct E3 as [_ C3], E4 as [_ C4], E5 as [_ C5].
  exists (host s1), wd, nt.
  destruct (observe (nodes_contains nt "Background") (host s1)) eqn:B.
  - apply bind_Ok in Eb. destruct Eb as (n0 & s0 & Er & Eb).
    apply read_Ok in Er. destruct Er as [-> ->].
    apply bind_Ok in Eb. destruct Eb as (n & s0 & Er & Eb).
    apply item_of_Ok in Er. destruct Er as [Hn ->].
    apply bind_Ok in Eb. destruct Eb as (k0 & s0 & Er & Eb).
    apply read_Ok in Er. destruct Er as [-> ->].
    apply bind_Ok in Eb. destruct Eb as (sock & s0 & Er & Eb).
    unfold index_of in Er.
    destruct (observe (node_inputs_at n 0) (host s1)) as [sk |] eqn:Hs;
      [| discriminate].
    apply ret_Ok in Er. destruct Er as [-> ->].
    apply op_Ok in Eb. destruct Eb as [_ C2].
    eexists. repeat split; try eassumption.
    + exists n, sk. repeat split; assumption.
    + rewrite C5, C4, C3, C2, C1. rewrite <- !app_assoc. reflexivity.
  - apply ret_Ok in Eb. destruct Eb as [_ ->].
    exists []. repeat split; try assumption.
    rewrite C5, C4, C3, C1. rewrite <- !app_assoc. reflexivity.
Qed.

(** X7.  [set_fcurve_extrapolation_to_linear] needs an active object with
    animation data and an action: when one of them is missing it raises an
    attribute error on [None] without any call, and the state is unchanged. *)
Theorem set_fcurve_extrapolation_needs_action (s : St) :
  active_fcurves (host s) = None ->
  exists a, set_fcurve_extrapolation_to_linear s = (Raise (AttributeError "NoneType" a), s).
Proof.
  unfold active_fcurves, set_fcurve_extrapolation_to_linear. intro N.
  unfold bind at 1, read at 1. cbv beta iota.
  destruct (observe context_active_object (host s)) as [o |];
    [| eexists; reflexivity].
  simpl attr_of. unfold bind at 1, ret at 1. cbv beta iota.
  unfold bind at 1, read at 1. cbv beta iota.
  destruct (observe (obj_animation_data o) (host s)) as [ad |];
    [| eexists; reflexivity].
  simpl attr_of. unfold bind at 1, ret at 1. cbv beta iota.
  unfold bind at 1, read at 1. cbv beta iota.
  destruct (observe (anim_action ad) (host s)) as [act |];
    [discriminate | eexists; reflexivity].
Qed.

Lemma bind_assoc {A B C} (m : M A) (k : A -> M B) (h : B -> M C) s :
  bind (bind m k) h s = bind m (fun a => bind (k a) h) s.
Proof.
  unfold bind. destruct (m s) as [[a | e |] s1]; reflexivity.
Qed.

Lemma bind_ext {A B} (m : M A) (k k' : A -> M B) s :
  (forall a s1, k a s1 = k' a s1) -> bind m k s = bind m k' s.
Proof.
  intro E. unfold bind. destruct (m s) as [[a | e |] s1]; auto.
Qed.

Lemma loop_then_linear o p sv mv sf ll s :
  create_data_animation_loop o p sv mv sf ll true s
  = (create_data_animation_loop o p sv mv sf ll false ;;
     set_fcurve_extrapolation_to_linear) s.
Proof.
  unfold create_data_animation_loop. cbv zeta.
  repeat (rewrite bind_assoc; apply bind_ext; intros).
  reflexivity.
Qed.

Lemma loop_without_linear_calls o p sv mv sf ll s s6 :
  create_data_animation_loop o p sv mv sf ll false s = (Ok tt, s6) ->
  calls s6 = calls s ++ loop_calls o p sv mv sf ll.
Proof.
  unfold create_data_animation_loop. intro E.
  apply bind_Ok in E. destruct E as (r1 & s1 & E1 & E).
  apply bind_Ok in E. destruct E as (r2 & s2 & E2 & E).
  apply bind_Ok in E. destruct E as (r3 & s3 & E3 & E). cbv beta zeta in E.
  apply bind_Ok in E. destruct E as (r4 & s4 & E4 & E).
  apply bind_Ok in E. destruct E as (r5 & s5 & E5 & E). cbv beta zeta in E.
  apply bind_Ok in E. destruct E as (r6 & s6' & E6 & E).
  apply ret_Ok in E. destruct E as [_ ->].
  apply op_Ok in E1, E2, E3, E4, E5, E6.
  destruct E1 as [_ E1], E2 as [_ E2], E3 as [_ E3], E4 as [_ E4],
           E5 as [_ E5], E6 as [_ E6].
  unfold loop_calls. rewrite E6, E5, E4, E3, E2, E1.
  rewrite <- !app_assoc. reflexivity.
Qed.

(** X8.  With [linear_extrapolation] the helper is the helper without it,
    followed by [set_fcurve_extrapolation_to_linear].  So when the active
    object has no action once the three keyframes are in, the call fails
    with an attribute error and the keyframes stay: the state is the one
    the helper without [linear_extrapolation] leaves. *)
Theorem create_data_animation_loop_fails_after_keyframes
    (o : obj) (data_path : string) (start_value mid_value : pyval)
    (start_frame loop_length : Q) (s s6 : St) :
  create_data_animation_loop o data_path start_value mid_value
    start_frame loop_length false s = (Ok tt, s6) ->
  active_fcurves (host s6) = None ->
  calls s6 = calls s
             ++ loop_calls o data_path start_value mid_value start_frame loop_length
  /\ exists a,
       create_data_animation_loop o data_path start_value mid_value
         start_frame loop_length true s
       = (Raise (AttributeError "NoneType" a), s6).
Proof.
  intros E N. split.
  - apply loop_without_linear_calls. exact E.
  - destruct (set_fcurve_extrapolation_needs_action s6 N) as [a Ha].
    exists a. rewrite loop_then_linear. unfold bind at 1. rewrite E. exact Ha.
Qed.

End Scene_more.

Section Clean_scene_more.

Context {H : Host}.

Lemma purge_orphans_not_toggle fuel : emits not_toggle (purge_orphans fuel).
Proof.
  induction fuel as [| n IH]; simpl.
  - apply emits_out_of_fuel.
  - repeat emits_step. exact IH.
Qed.

Lemma calls_then_emits (P : logged -> bool) (first rest : M unit) s pre :
  calls (snd (first s)) = calls s ++ pre ->
  emits P rest ->
  exists d, calls (snd (bind first (fun _ => rest) s)) = calls s ++ pre ++ d
            /\ forallb P d = true.
Proof.
  intros Hf Hr. unfold bind. destruct (first s) as [[[] | e |] s1]; simpl in *.
  - destruct (Hr s1) as (d & Hd & Fd). exists d. split; [| exact Fd].
    rewrite Hd, Hf, app_assoc. reflexivity.
  - exists []. rewrite app_nil_r. auto.
  - exists []. rewrite app_nil_r. auto.
Qed.

(** X9.  [clean_scene] toggles Edit Mode at most once, as its first call,
    and exactly when an object is active and in Edit Mode; no later call
    of [clean_scene] is the toggle. *)
Theorem clean_scene_toggles_edit_mode_first (fuel : nat) (s : St) :
  exists d,
    calls (snd (clean_scene fuel s))
    = calls s
      ++ (if in_edit_mode (host s) then [Logged ops_object_editmode_toggle] else [])
      ++ d
    /\ forallb not_toggle d = true.
Proof.
  unfold clean_scene, clean_scene_body.
  rewrite bind_assoc. unfold bind at 1, read at 1. cbv beta iota.
  rewrite bind_assoc.
  apply calls_then_emits.
  - unfold in_edit_mode.
    destruct (observe context_active_object (host s)) as [o |] eqn:A.
    + unfold bind at 1, read at 1. cbv beta iota. rewrite A. simpl attr_of.
      unfold bind at 1, ret at 1. cbv beta iota.
      unfold bind at 1, read at 1. cbv beta iota.
      destruct (String.eqb (observe (obj_mode o) (host s)) "EDIT").
      * unfold bind, op, ret.
        destruct (perform ops_object_editmode_toggle (host s)) as [[e | st] w];
          reflexivity.
      * simpl. rewrite app_nil_r. reflexivity.
    + simpl. rewrite app_nil_r. reflexivity.
  - repeat emits_step. apply purge_orphans_not_toggle.
Qed.

End Clean_scene_more.

(** ** The helpers on the rest of the interface *)

Section ScriptX_lemmas.

Context {H : Host} {HX : HostX H}.

Lemma xbind_Ok {A B} (m : MX A) (k : A -> MX B) s b s' :
  xbind m k s = (Ok b, s') ->
  exists a s1, m s = (Ok a, s1) /\ k a s1 = (Ok b, s').
Proof.
  unfold xbind. destruct (m s) as [[a | e |] s1]; intro E; try discriminate.
  exists a, s1. split; [reflexivity | exact E].
Qed.

Lemma xop_Ok {R} (c : OpX R) s v s' :
  xop c s = (Ok v, s') ->
  perform_x c (xhost s) = (inr v, xhost s') /\ xcalls s' = xcalls s ++ [Ext c].
Proof.
  unfold xop. destruct (perform_x c (xhost s)) as [[e | r] w']; intro E;
    inversion E; subst; simpl; auto.
Qed.

Lemma xop_returns {R} (c : OpX R) s v s' :
  xop c s = (Ok v, s') -> returns_x c (xhost s) (xhost s').
Proof. intro E. apply xop_Ok in E. destruct E as [P _]. eexists. exact P. Qed.

Lemma xread_Ok {R} (q : ReadX R) s v s' :
  xread q s = (Ok v, s') -> v = observe_x q (xhost s) /\ s' = s.
Proof. unfold xread. intro E. inversion E. auto. Qed.

Lemma xret_Ok {A} (a : A) s v s' : xret a s = (Ok v, s') -> v = a /\ s' = s.
Proof. unfold xret. intro E. inversion E. auto. Qed.

Lemma stx_eta (s : StX) : mkStX (xhost s) (xcalls s ++ []) = s.
Proof. destruct s. simpl. rewrite app_nil_r. reflexivity. Qed.

Lemma lift_read {R} (q : Read R) s :
  lift (read q) s = (Ok (observe q (xhost s)), s).
Proof. unfold lift, read. simpl. rewrite stx_eta. reflexivity. Qed.

Lemma lift_op {R} (c : Op R) s :
  lift (op c) s =
  match perform c (xhost s) with
  | (inr v, w') => (Ok v, mkStX w' (xcalls s ++ [Base (Logged c)]))
  | (inl e, w') => (Raise e, mkStX w' (xcalls s ++ [Base (Logged c)]))
  end.
Proof.
  unfold lift, op. simpl.
  destruct (perform c (xhost s)) as [[e | v] w']; reflexivity.
Qed.

Lemma lift_op_Ok {R} (c : Op R) s v s' :
  lift (op c) s = (Ok v, s') ->
  perform c (xhost s) = (inr v, xhost s')
  /\ xcalls s' = xcalls s ++ [Base (Logged c)].
Proof.
  rewrite lift_op. destruct (perform c (xhost s)) as [[e | r] w']; intro E;
    inversion E; subst; simpl; auto.
Qed.


Lemma lift_attr_of {A} (x : option A) attr s :
  lift (attr_of x attr) s =
  match x with
  | Some a => (Ok a, s)
  | None => (Raise (AttributeError "NoneType" attr), s)
  end.
Proof. destruct x; unfold lift; simpl; rewrite stx_eta; reflexivity. Qed.

Lemma lift_index_of {A} (x : option A) i s :
  lift (index_of x i) s =
  match x with
  | Some a => (Ok a, s)
  | None => (Raise (IndexError i), s)
  end.
Proof. destruct x; unfold lift; simpl; rewrite stx_eta; reflexivity. Qed.

Lemma switch_Ok (o : obj) (mode : string) s s' :
  xbind (xop (set_view_layer_active o)) (fun _ =>
    xbind (xop (obj_select_set o true)) (fun _ =>
      xbind (xop (ops_object_mode_set mode)) (fun _ => xret tt))) s = (Ok tt, s') ->
  exists s1 s2 status,
    xop (set_view_layer_active o) s = (Ok tt, s1)
    /\ xop (obj_select_set o true) s1 = (Ok tt, s2)
    /\ xop (ops_object_mode_set mode) s2 = (Ok status, s')
    /\ xcalls s' = xcalls s ++ switch_calls o mode.
Proof.
  intro E.
  apply xbind_Ok in E. destruct E as ([] & s1 & E1 & E).
  apply xbind_Ok in E. destruct E as ([] & s2 & E2 & E).
  apply xbind_Ok in E. destruct E as (st & s3 & E3 & E).
  apply xret_Ok in E. destruct E as [_ ->].
  exists s1, s2, st. repeat split; try assumption.
  apply xop_Ok in E1, E2, E3.
  destruct E1 as [_ C1], E2 as [_ C2], E3 as [_ C3].
  unfold switch_calls. rewrite C3, C2, C1, <- !app_assoc. reflexivity.
Qed.

Lemma set_selection_mode_Ok (o : obj) (mode : string) s s' :
  set_selection_mode o mode s = (Ok tt, s') ->
  exists final,
    xcalls s' = xcalls s
      ++ (if String.eqb (observe (obj_mode o) (xhost s)) "EDIT" then []
          else switch_calls o "EDIT")
      ++ [final]
    /\ (mode = "VERTEX" -> final = Ext (ops_mesh_select_mode "VERT"))
    /\ (mode = "EDGE" -> final = Ext (ops_mesh_select_mode "EDGE"))
    /\ (mode = "FACE" -> final = Ext (ops_mesh_select_mode "FACE"))
    /\ (mode <> "VERTEX" -> mode <> "EDGE" -> mode <> "FACE" ->
        final = Base (Logged (py_print (unsupported_mode mode)))).
Proof.
  unfold set_selection_mode. intro E.
  apply xbind_Ok in E. destruct E as (m & s0 & Em & E).
  rewrite lift_read in Em. inversion Em; subst m s0. clear Em.
  apply xbind_Ok in E. destruct E as ([] & s1 & Esw & E).
  assert (Csw : xcalls s1 = xcalls s
            ++ (if String.eqb (observe (obj_mode o) (xhost s)) "EDIT" then []
                else switch_calls o "EDIT")).
  { destruct (String.eqb (observe (obj_mode o) (xhost s)) "EDIT"); simpl in Esw.
    - apply xret_Ok in Esw. destruct Esw as [_ ->]. rewrite app_nil_r. reflexivity.
    - unfold enter_edit_mode in Esw. apply switch_Ok in Esw.
      destruct Esw as (? & ? & ? & _ & _ & _ & C). exact C. }
  destruct (String.eqb mode "VERTEX") eqn:V.
  { apply String.eqb_eq in V. subst mode.
    apply xbind_Ok in E. destruct E as (st & s2 & E & Er).
    apply xret_Ok in Er. destruct Er as [_ ->].
    apply xop_Ok in E. destruct E as [_ C].
    eexists. split; [rewrite C, Csw, <- app_assoc; reflexivity |].
    repeat split; try discriminate; try reflexivity.
    intros N. contradiction. }
  destruct (String.eqb mode "EDGE") eqn:G.
  { apply String.eqb_eq in G. subst mode.
    apply xbind_Ok in E. destruct E as (st & s2 & E & Er).
    apply xret_Ok in Er. destruct Er as [_ ->].
    apply xop_Ok in E. destruct E as [_ C].
    eexists. split; [rewrite C, Csw, <- app_assoc; reflexivity |].
    repeat split; try discriminate; try reflexivity.
    intros _ N. contradiction. }
  destruct (String.eqb mode "FACE") eqn:F.
  { apply String.eqb_eq in F. subst mode.
    apply xbind_Ok in E. destruct E as (st & s2 & E & Er).
    apply xret_Ok in Er. destruct Er as [_ ->].
    apply xop_Ok in E. destruct E as [_ C].
    eexists. split; [rewrite C, Csw, <- app_assoc; reflexivity |].
    repeat split; try discriminate; try reflexivity.
    intros _ _ N. contradiction. }
  apply String.eqb_neq in V, G, F.
  apply lift_op_Ok in E. destruct E as [_ C].
  eexists. split; [rewrite C, Csw, <- app_assoc; reflexivity |].
  repeat split; intros; try contradiction; try reflexivity.
Qed.

(** X10.  When [set_selection_mode] returns, it has first switched the
    object to Edit Mode if it was not in it (made it active, selected it,
    set the mode), and then made one more call: the select-mode operator
    with 'VERT' for 'VERTEX', 'EDGE' for 'EDGE' and 'FACE' for 'FACE', and
    for any other mode only the print of the message; so an unsupported
    mode still leaves the object in Edit Mode. *)
Theorem set_selection_mode_calls (o : obj) (mode : string) (s s' : StX) :
  set_selection_mode o mode s = (Ok tt, s') ->
  exists final,
    xcalls s' = xcalls s
      ++ (if String.eqb (observe (obj_mode o) (xhost s)) "EDIT" then []
          else switch_calls o "EDIT")
      ++ [final]
    /\ (mode = "VERTEX" -> final = Ext (ops_mesh_select_mode "VERT"))
    /\ (mode = "EDGE" -> final = Ext (ops_mesh_select_mode "EDGE"))
    /\ (mode = "FACE" -> final = Ext (ops_mesh_select_mode "FACE"))
    /\ (mode <> "VERTEX" -> mode <> "EDGE" -> mode <> "FACE" ->
        final = Base (Logged (py_print (unsupported_mode mode)))).
Proof. apply set_selection_mode_Ok. Qed.

Section Modes.

Hypothesis make_active :
  forall o w w', returns_x (set_view_layer_active o) w w' ->
    observe context_active_object w' = Some o.
Hypothesis select_keeps_active :
  forall o b w w', returns_x (obj_select_set o b) w w' ->
    observe context_active_object w' = observe context_active_object w.
Hypothesis mode_set_active :
  forall mode w w' o, returns_x (ops_object_mode_set mode) w w' ->
    observe context_active_object w = Some o ->
    observe (obj_mode o) w' = mode.

Lemma switch_sets_mode (o : obj) (mode : string) s s' :
  xbind (xop (set_view_layer_active o)) (fun _ =>
    xbind (xop (obj_select_set o true)) (fun _ =>
      xbind (xop (ops_object_mode_set mode)) (fun _ => xret tt))) s = (Ok tt, s') ->
  observe (obj_mode o) (xhost s') = mode.
Proof.
  intro E. apply switch_Ok in E.
  destruct E as (s1 & s2 & st & E1 & E2 & E3 & _).
  apply xop_returns in E1, E2, E3.
  apply (mode_set_active _ _ _ o E3).
  rewrite (select_keeps_active _ _ _ _ E2). apply (make_active _ _ _ E1).
Qed.

(** X11.  On a host where making an object active makes it the active
    object, selecting leaves the active object alone, and [mode_set] sets
    the mode of the active object: after [enter_edit_mode(obj)] the object
    is in mode 'EDIT', after [exit_edit_mode(obj)] in mode 'OBJECT', and a
    [set_selection_mode] that follows [enter_edit_mode] does not switch
    modes again: it makes a single call. *)
Theorem enter_exit_edit_mode (o : obj) (s s1 : StX) :
  (enter_edit_mode o s = (Ok tt, s1) ->
     observe (obj_mode o) (xhost s1) = "EDIT"
     /\ forall mode s2, set_selection_mode o mode s1 = (Ok tt, s2) ->
          exists final, xcalls s2 = xcalls s1 ++ [final])
  /\ (exit_edit_mode o s = (Ok tt, s1) ->
     observe (obj_mode o) (xhost s1) = "OBJECT")
  /\ (forall s2, enter_edit_mode o s = (Ok tt, s1) ->
        exit_edit_mode o s1 = (Ok tt, s2) ->
        observe (obj_mode o) (xhost s2) = "OBJECT"
        /\ xcalls s2 = xcalls s ++ switch_calls o "EDIT" ++ switch_calls o "OBJECT").
Proof.
  split; [| split].
  - intro E. pose proof (switch_sets_mode _ _ _ _ E) as M. split; [exact M |].
    intros mode s2 E2. apply set_selection_mode_Ok in E2.
    destruct E2 as (final & C & _). rewrite M in C. simpl in C.
    exists final. exact C.
  - intro E. exact (switch_sets_mode _ _ _ _ E).
  - intros s2 E1 E2. split; [exact (switch_sets_mode _ _ _ _ E2) |].
    apply switch_Ok in E1, E2.
    destruct E1 as (? & ? & ? & _ & _ & _ & C1).
    destruct E2 as (? & ? & ? & _ & _ & _ & C2).
    rewrite C2, C1, <- app_assoc. reflexivity.
Qed.

End Modes.

End ScriptX_lemmas.

Section Nodes_more.

Context {H : Host} {HX : HostX H}.

Lemma xfor_each_op_calls {A} (c : A -> OpX unit) (l : list A) :
  forall s s',
    xfor_each l (fun x => xop (c x)) s = (Ok tt, s') ->
    xcalls s' = xcalls s ++ map (fun x => Ext (c x)) l.
Proof.
  induction l as [| x l IH]; intros s s' E; simpl in E.
  - apply xret_Ok in E. destruct E as [_ ->]. rewrite app_nil_r. reflexivity.
  - apply xbind_Ok in E. destruct E as ([] & s1 & E1 & E2).
    apply xop_Ok in E1. destruct E1 as [_ E1].
    apply IH in E2. rewrite E2, E1. simpl. rewrite <- app_assoc. reflexivity.
Qed.

Lemma fold_remove_all_nat (l : list nat) :
  forall cur, incl cur l ->
    fold_left (fun acc n => remove Nat.eq_dec n acc) l cur = [].
Proof.
  induction l as [| n l IH]; intros cur Hin; simpl.
  - apply incl_nil_eq. exact Hin.
  - apply IH. intros x Hx. apply in_remove in Hx. destruct Hx as [Hx Hne].
    destruct (Hin x Hx) as [-> | Hl]; [contradiction | exact Hl].
Qed.

Lemma remove_loop_nodes (nt : ntree) :
  (forall n w w', returns_x (nodes_remove nt n) w w' ->
      observe_x (tree_nodes nt) w'
      = remove Nat.eq_dec n (observe_x (tree_nodes nt) w)) ->
  forall l s s',
    xfor_each l (fun n => xop (nodes_remove nt n)) s = (Ok tt, s') ->
    observe_x (tree_nodes nt) (xhost s')
    = fold_left (fun acc n => remove Nat.eq_dec n acc) l
        (observe_x (tree_nodes nt) (xhost s)).
Proof.
  intros Hrm l. induction l as [| n l IH]; intros s s' E; simpl in E.
  - apply xret_Ok in E. destruct E as [_ ->]. reflexivity.
  - apply xbind_Ok in E. destruct E as ([] & s1 & E1 & E2).
    apply xop_returns in E1. rewrite (IH _ _ E2). simpl.
    rewrite (Hrm _ _ _ E1). reflexivity.
Qed.

(** X12.  When [clear_nodes] returns it has called [nodes.remove] once for
    every node the tree had when it was called, in their order, and
    nothing else (an empty tree: no call).  On a host where removing a node
    takes that node, and only that node, out of the tree, the tree has no
    node left. *)
Theorem clear_nodes_removes_all (nt : ntree) (s s' : StX) :
  (forall n w w', returns_x (nodes_remove nt n) w w' ->
      observe_x (tree_nodes nt) w'
      = remove Nat.eq_dec n (observe_x (tree_nodes nt) w)) ->
  clear_nodes nt s = (Ok tt, s') ->
  xcalls s' = xcalls s
              ++ map (fun n => Ext (nodes_remove nt n))
                   (observe_x (tree_nodes nt) (xhost s))
  /\ observe_x (tree_nodes nt) (xhost s') = [].
Proof.
  intros Hrm E. unfold clear_nodes in E.
  apply xbind_Ok in E. destruct E as (l & s0 & El & E).
  apply xread_Ok in El. destruct El as [-> ->].
  split.
  - apply xfor_each_op_calls in E. exact E.
  - rewrite (remove_loop_nodes nt Hrm _ _ _ E).
    apply fold_remove_all_nat. apply incl_refl.
Qed.

Section Duplicate.

Hypothesis select_spec :
  forall n b w w', returns_x (set_node_select n b) w w' ->
    observe_x (node_select_get n) w' = b
    /\ (forall n', n' <> n ->
          observe_x (node_select_get n') w' = observe_x (node_select_get n') w)
    /\ (forall nt, observe_x (tree_nodes nt) w' = observe_x (tree_nodes nt) w).
Hypothesis active_spec :
  forall nt n w w', returns_x (set_tree_active_node nt n) w w' ->
    observe_x (tree_active_node nt) w' = Some n
    /\ (forall n', observe_x (node_select_get n') w' = observe_x (node_select_get n') w)
    /\ observe_x (tree_nodes nt) w' = observe_x (tree_nodes nt) w.

Lemma deselect_loop (nt : ntree) (l : list node) :
  forall s s',
    xfor_each l (fun n' => xop (set_node_select n' false)) s = (Ok tt, s') ->
    observe_x (tree_nodes nt) (xhost s') = observe_x (tree_nodes nt) (xhost s)
    /\ (forall n', In n' l \/ observe_x (node_select_get n') (xhost s) = false ->
          observe_x (node_select_get n') (xhost s') = false).
Proof.
  induction l as [| x l IH]; intros s s' E; simpl in E.
  - apply xret_Ok in E. destruct E as [_ ->]. split; [reflexivity |].
    intros n' [[] | S]; exact S.
  - apply xbind_Ok in E. destruct E as ([] & s1 & E1 & E2).
    apply xop_returns in E1.
    destruct (select_spec _ _ _ _ E1) as (Sx & So & St).
    destruct (IH _ _ E2) as (T & F).
    split; [rewrite T; apply St |].
    intros n' [[-> | Hin] | S]; apply F; auto.
    right. destruct (Nat.eq_dec n' x) as [-> | Hne]; [exact Sx |].
    rewrite So by exact Hne. exact S.
Qed.

(** X13.  On a host where a write to a node's selection changes that node
    only and where making a node active leaves the selection alone: when
    [duplicate_node] returns, the duplicate operator was called in a state
    in which the given node was selected and active and every other node
    of the tree was deselected, and the value returned is the node that is
    active after the operator. *)
Theorem duplicate_node_selects_only_it (nt : ntree) (n : node)
    (s s' : StX) (r : option node) :
  duplicate_node nt n s = (Ok r, s') ->
  exists s5 status,
    xop ops_node_duplicate s5 = (Ok status, s')
    /\ observe_x (node_select_get n) (xhost s5) = true
    /\ observe_x (tree_active_node nt) (xhost s5) = Some n
    /\ (forall n', In n' (observe_x (tree_nodes nt) (xhost s5)) -> n' <> n ->
          observe_x (node_select_get n') (xhost s5) = false)
    /\ r = observe_x (tree_active_node nt) (xhost s').
Proof.
  unfold duplicate_node. intro E.
  apply xbind_Ok in E. destruct E as (sd0 & s0 & Er & E).
  apply xread_Ok in Er. destruct Er as [-> ->].
  apply xbind_Ok in E. destruct E as (sd & s0 & Er & E).
  rewrite lift_attr_of in Er.
  destruct (observe_x context_space_data (xhost s)) as [sp |]; [| discriminate].
  inversion Er; subst sd s0. clear Er.
  apply xbind_Ok in E. destruct E as ([] & s1 & _ & E).
  apply xbind_Ok in E. destruct E as (l & s0 & Er & E).
  apply xread_Ok in Er. destruct Er as [-> ->].
  apply xbind_Ok in E. destruct E as ([] & s2 & Eloop & E).
  apply xbind_Ok in E. destruct E as ([] & s3 & Esel & E).
  apply xbind_Ok in E. destruct E as ([] & s4 & Eact & E).
  apply xbind_Ok in E. destruct E as (st & s5 & Edup & E).
  apply xbind_Ok in E. destruct E as (d & s0 & Er & E).
  apply xread_Ok in Er. destruct Er as [-> ->].
  apply xret_Ok in E. destruct E as [-> ->].
  destruct (deselect_loop nt _ _ _ Eloop) as (T2 & F2).
  destruct (select_spec _ _ _ _ (xop_returns _ _ _ _ Esel)) as (S3 & O3 & T3).
  destruct (active_spec _ _ _ _ (xop_returns _ _ _ _ Eact)) as (A4 & S4 & T4).
  exists s4, st. repeat split.
  - exact Edup.
  - rewrite S4. exact S3.
  - exact A4.
  - intros n' Hin Hne. rewrite S4, O3 by exact Hne. apply F2. left.
    rewrite T4, T3, T2 in Hin. exact Hin.
Qed.

End Duplicate.

(** X14.  On a host where a write to a coordinate of a node's location
    sets that coordinate and leaves the other one: when [move_node]
    returns, the node is at its old location plus [(gx, gy)], and the two
    writes are all it has done; moving by the default [(0, 0)] leaves the
    location where it was. *)
Theorem move_node_adds (n : node) (gx gy : Q) (s s' : StX) :
  (forall v w w', returns_x (set_node_location_x n v) w w' ->
      observe_x (node_location_x n) w' = v
      /\ observe_x (node_location_y n) w' = observe_x (node_location_y n) w) ->
  (forall v w w', returns_x (set_node_location_y n v) w w' ->
      observe_x (node_location_y n) w' = v
      /\ observe_x (node_location_x n) w' = observe_x (node_location_x n) w) ->
  move_node n gx gy s = (Ok tt, s') ->
  let x0 := observe_x (node_location_x n) (xhost s) in
  let y0 := observe_x (node_location_y n) (xhost s) in
  observe_x (node_location_x n) (xhost s') = (x0 + gx)%Q
  /\ observe_x (node_location_y n) (xhost s') = (y0 + gy)%Q
  /\ xcalls s' = xcalls s ++ [Ext (set_node_location_x n (x0 + gx)%Q);
                              Ext (set_node_location_y n (y0 + gy)%Q)]
  /\ (gx == 0 -> gy == 0 ->
      observe_x (node_location_x n) (xhost s') == x0
      /\ observe_x (node_location_y n) (xhost s') == y0)%Q.
Proof.
  intros Hx Hy E x0 y0. unfold move_node in E.
  apply xbind_Ok in E. destruct E as (x & s0 & Er & E).
  apply xread_Ok in Er. destruct Er as [-> ->].
  apply xbind_Ok in E. destruct E as ([] & s1 & E1 & E).
  apply xbind_Ok in E. destruct E as (y & s0 & Er & E).
  apply xread_Ok in Er. destruct Er as [-> ->].
  pose proof (xop_returns _ _ _ _ E1) as R1.
  pose proof (xop_returns _ _ _ _ E) as R2.
  destruct (Hx _ _ _ R1) as [X1 Y1]. destruct (Hy _ _ _ R2) as [Y2 X2].
  apply xop_Ok in E1, E. destruct E1 as [_ C1], E as [_ C2].
  assert (Ex : observe_x (node_location_x n) (xhost s') = (x0 + gx)%Q)
    by (rewrite X2; exact X1).
  assert (Ey : observe_x (node_location_y n) (xhost s') = (y0 + gy)%Q)
    by (rewrite Y2, Y1; reflexivity).
  repeat split.
  - exact Ex.
  - exact Ey.
  - rewrite C2, C1, Y1, <- app_assoc. reflexivity.
  - rewrite Ex, H0. ring.
  - rewrite Ey, H1. ring.
Qed.

End Nodes_more.

Section Viewport.

Context {H : Host} {HX : HostX H}.

Lemma first_view_3d_find (l : list area) (s : StX) :
  first_view_3d l s = (Ok (find (is_view_3d (xhost s)) l), s).
Proof.
  induction l as [| a l IH]; simpl; [reflexivity |].
  unfold xbind at 1, xread at 1. cbv beta iota. unfold is_view_3d at 1.
  destruct (String.eqb (observe_x (area_type a) (xhost s)) "VIEW_3D");
    [reflexivity | exact IH].
Qed.

Lemma viewport_area_unfold (s : StX) :
  get_active_geo_nodes_viewport_area s =
  if negb (String.eqb (observe_x context_mode (xhost s)) "OBJECT")
  then xbind (lift (op (py_print "Not in Object Mode!"))) (fun _ => xret None) s
  else if negb (String.eqb (observe_x screen_name (xhost s)) "Geometry Nodes")
  then xbind (lift (op (py_print "Not in the Geometry Nodes tab!")))
         (fun _ => xret None) s
  else (Ok (find (is_view_3d (xhost s)) (observe_x screen_areas (xhost s))), s).
Proof.
  unfold get_active_geo_nodes_viewport_area.
  unfold xbind at 1. unfold xread at 1. cbv beta iota.
  destruct (String.eqb (observe_x context_mode (xhost s)) "OBJECT");
    cbn [negb]; cbv beta iota.
  - unfold xbind at 1. unfold xread at 1. cbv beta iota.
    destruct (String.eqb (observe_x screen_name (xhost s)) "Geometry Nodes");
      cbn [negb]; cbv beta iota.
    + unfold xbind at 1. unfold xread at 1. cbv beta iota.
      apply first_view_3d_find.
    + reflexivity.
  - reflexivity.
Qed.

Lemma print_then_none (line : string) (s : StX) :
  let r := xbind (lift (op (py_print line))) (fun _ => xret (@None area)) s in
  xcalls (snd r) = xcalls s ++ [Base (Logged (py_print line))]
  /\ (forall v, fst r = Ok v -> v = None)
  /\ (forall v s', r = (Ok v, s') ->
        perform (py_print line) (xhost s) = (inr tt, xhost s')).
Proof.
  unfold xbind. rewrite lift_op.
  destruct (perform (py_print line) (xhost s)) as [[e | []] w'] eqn:P; simpl.
  - repeat split; intros; discriminate.
  - repeat split; intros v; intros; try (inversion H0; subst; reflexivity).
Qed.

(** X15.  [get_active_geo_nodes_viewport_area] looks at the mode first and
    at the screen second: outside of mode 'OBJECT' it prints "Not in
    Object Mode!" and gives [None]; else, on a screen that is not called
    'Geometry Nodes', it prints "Not in the Geometry Nodes tab!" and gives
    [None]; else it prints nothing, changes nothing, and gives the first
    area of type 'VIEW_3D' of the screen, or [None] when there is none. *)
Theorem get_active_geo_nodes_viewport_area_first (s : StX) :
  let w := xhost s in
  let r := get_active_geo_nodes_viewport_area s in
  (observe_x context_mode w <> "OBJECT" ->
     xcalls (snd r) = xcalls s ++ [Base (Logged (py_print "Not in Object Mode!"))]
     /\ forall v, fst r = Ok v -> v = None)
  /\ (observe_x context_mode w = "OBJECT" ->
      observe_x screen_name w <> "Geometry Nodes" ->
     xcalls (snd r)
     = xcalls s ++ [Base (Logged (py_print "Not in the Geometry Nodes tab!"))]
     /\ forall v, fst r = Ok v -> v = None)
  /\ (observe_x context_mode w = "OBJECT" ->
      observe_x screen_name w = "Geometry Nodes" ->
     r = (Ok (find (is_view_3d w) (observe_x screen_areas w)), s))
  /\ (forall a s', r = (Ok (Some a), s') ->
        s' = s
        /\ observe_x context_mode w = "OBJECT"
        /\ observe_x screen_name w = "Geometry Nodes"
        /\ find (is_view_3d w) (observe_x screen_areas w) = Some a).
Proof.
  intros w r. subst r. rewrite viewport_area_unfold. fold w.
  destruct (String.eqb (observe_x context_mode w) "OBJECT") eqn:M;
    cbn [negb]; cbv iota.
  - apply String.eqb_eq in M.
    destruct (String.eqb (observe_x screen_name w) "Geometry Nodes") eqn:N;
      cbn [negb]; cbv iota.
    + apply String.eqb_eq in N.
      split; [intro C; contradiction |].
      split; [intros _ C; contradiction |].
      split; [intros _ _; reflexivity |].
      intros a s' E. inversion E. auto.
    + apply String.eqb_neq in N.
      destruct (print_then_none "Not in the Geometry Nodes tab!" s) as (C & V & _).
      split; [intro C'; contradiction |].
      split; [intros _ _; split; [exact C | exact V] |].
      split; [intros _ C'; contradiction |].
      intros a s' E. apply (f_equal fst) in E. simpl in E.
      apply V in E. discriminate.
  - apply String.eqb_neq in M.
    destruct (print_then_none "Not in Object Mode!" s) as (C & V & _).
    split; [intros _; split; [exact C | exact V] |].
    split; [intros C'; contradiction |].
    split; [intros C'; contradiction |].
    intros a s' E. apply (f_equal fst) in E. simpl in E.
    apply V in E. discriminate.
Qed.

End Viewport.

Section Wireframe.

Context {H : Host} {HX : HostX H}.

Lemma print_then_fallback (line : string) (s s' : StX) :
  xbind (xbind (lift (op (py_print line))) (fun _ => xret (@None area)))
    (fun v => match v with
              | Some a =>
                  xbind (xread (area_spaces_at a 0)) (fun sp =>
                    xbind (lift (index_of sp 0)) (fun sp =>
                      xop (set_space_shading_type sp "WIREFRAME")))
              | None =>
                  lift (op (py_print
                    "No active 3D Viewport found in the Geometry Nodes workspace."))
              end) s = (Ok tt, s') ->
  xcalls s' = xcalls s ++ [Base (Logged (py_print line)); no_viewport].
Proof.
  intro E.
  apply xbind_Ok in E. destruct E as (v & s1 & E1 & E).
  apply xbind_Ok in E1. destruct E1 as ([] & s0 & E1 & Er).
  apply xret_Ok in Er. destruct Er as [-> ->].
  apply lift_op_Ok in E1, E. destruct E1 as [_ C1], E as [_ C2].
  unfold no_viewport. rewrite C2, C1, <- app_assoc. reflexivity.
Qed.

(** X16.  When [set_active_3d_view_to_wireframe] returns, what it did is
    one of these.  Outside of mode 'OBJECT': it printed "Not in Object
    Mode!" and then "No active 3D Viewport found in the Geometry Nodes
    workspace.".  On a screen not called 'Geometry Nodes': it printed "Not
    in the Geometry Nodes tab!" and then that same line.  Otherwise, with
    no area of type 'VIEW_3D': it printed that line only; and with one: it
    wrote 'WIREFRAME' to the shading of the first space of the first such
    area, and nothing else. *)
Theorem set_active_3d_view_to_wireframe_calls (s s' : StX) :
  set_active_3d_view_to_wireframe s = (Ok tt, s') ->
  let w := xhost s in
  (observe_x context_mode w <> "OBJECT" ->
     xcalls s' = xcalls s
                 ++ [Base (Logged (py_print "Not in Object Mode!")); no_viewport])
  /\ (observe_x context_mode w = "OBJECT" ->
      observe_x screen_name w <> "Geometry Nodes" ->
     xcalls s' = xcalls s
                 ++ [Base (Logged (py_print "Not in the Geometry Nodes tab!"));
                     no_viewport])
  /\ (observe_x context_mode w = "OBJECT" ->
      observe_x screen_name w = "Geometry Nodes" ->
     match find (is_view_3d w) (observe_x screen_areas w) with
     | Some a =>
         exists sp,
           observe_x (area_spaces_at a 0) w = Some sp
           /\ xcalls s' = xcalls s ++ [Ext (set_space_shading_type sp "WIREFRAME")]
     | None => xcalls s' = xcalls s ++ [no_viewport]
     end).
Proof.
  unfold set_active_3d_view_to_wireframe. intro E. cbv zeta.
  unfold xbind at 1 in E. rewrite viewport_area_unfold in E.
  set (w := xhost s) in *.
  destruct (String.eqb (observe_x context_mode w) "OBJECT") eqn:M;
    cbn [negb] in E; cbv iota in E.
  - apply String.eqb_eq in M.
    destruct (String.eqb (observe_x screen_name w) "Geometry Nodes") eqn:N;
      cbn [negb] in E; cbv iota in E.
    + apply String.eqb_eq in N.
      split; [intro C; contradiction |].
      split; [intros _ C; contradiction |].
      intros _ _.
      destruct (find (is_view_3d w) (observe_x screen_areas w)) as [a |].
      * apply xbind_Ok in E. destruct E as (sp0 & s0 & Er & E).
        apply xread_Ok in Er. destruct Er as [-> ->].
        apply xbind_Ok in E. destruct E as (sp & s0 & Er & E).
        rewrite lift_index_of in Er. fold w in Er.
        destruct (observe_x (area_spaces_at a 0) w) as [sp' |]; [| discriminate].
        inversion Er; subst sp' s0. clear Er.
        apply xop_Ok in E. destruct E as [_ C].
        exists sp. split; [reflexivity | exact C].
      * apply lift_op_Ok in E. destruct E as [_ C]. exact C.
    + apply String.eqb_neq in N.
      split; [intro C; contradiction |].
      split; [| intros _ C; contradiction].
      intros _ _.
      apply (print_then_fallback "Not in the Geometry Nodes tab!" s s').
      unfold xbind at 1. exact E.
  - apply String.eqb_neq in M.
    split; [| split; intros C; contradiction].
    intros _.
    apply (print_then_fallback "Not in Object Mode!" s s').
    unfold xbind at 1. exact E.
Qed.

End Wireframe.

Section Modifier.

Context {H : Host} {HX : HostX H}.


End Modifier.

(** ** The extended reference host keeps to the assumptions made *)

Section MiniX_contract.

Lemma mini_purge_keeps_version :
  forall (w : @world mini_host) status w',
    @perform mini_host _ (ops_outliner_orphans_purge []) w = (inr status, w') ->
    @observe mini_host _ app_version w' = @observe mini_host _ app_version w.
Proof.
  intros w status w' P. simpl in *.
  destruct (Nat.eqb (Mini.count_orphans w) 0); inversion P; subst; reflexivity.
Qed.

Lemma minix_make_active :
  forall o (w w' : @world minix_host),
    @returns_x minix_host minix_hostx _ (set_view_layer_active o) w w' ->
    @observe minix_host _ context_active_object w' = Some o.
Proof.
  intros o [m u] w' [r P]. simpl in P.
  destruct (Mini.has_obj m o) eqn:Ho; inversion P; subst.
  simpl. unfold MiniX.observe, Mini.get_active. simpl.
  unfold Mini.has_obj in *. simpl. rewrite Ho. reflexivity.
Qed.

Lemma minix_select_keeps_active :
  forall o b (w w' : @world minix_host),
    @returns_x minix_host minix_hostx _ (obj_select_set o b) w w' ->
    @observe minix_host _ context_active_object w'
    = @observe minix_host _ context_active_object w.
Proof.
  intros o b [m u] w' [r P]. simpl in P.
  destruct (Mini.has_obj m o); inversion P; subst. reflexivity.
Qed.

Lemma minix_mode_set_active :
  forall mode (w w' : @world minix_host) o,
    @returns_x minix_host minix_hostx _ (ops_object_mode_set mode) w w' ->
    @observe minix_host _ context_active_object w = Some o ->
    @observe minix_host _ (obj_mode o) w' = mode.
Proof.
  intros mode [m u] w' o [r P] A. simpl in P, A. unfold MiniX.observe in A.
  simpl in A. rewrite A in P.
  destruct (String.eqb mode "OBJECT" || String.eqb mode "EDIT"); inversion P; subst.
  simpl. unfold MiniX.observe, Mini.mode_of, Mini.set_attr. simpl.
  rewrite Nat.eqb_refl. reflexivity.
Qed.

Lemma remove_filter (p : nat -> bool) (n : nat) (l : list nat) :
  remove Nat.eq_dec n (filter p l)
  = filter (fun x => negb (Nat.eqb x n || negb (p x))) l.
Proof.
  induction l as [| x l IH]; simpl; [reflexivity |].
  destruct (p x) eqn:Px; simpl.
  - destruct (Nat.eq_dec n x) as [-> | Hne].
    + rewrite Nat.eqb_refl. simpl. exact IH.
    + assert (E : Nat.eqb x n = false) by (apply Nat.eqb_neq; congruence).
      rewrite E. simpl. rewrite IH. reflexivity.
  - rewrite orb_true_r. simpl. exact IH.
Qed.

Lemma minix_nodes_remove :
  forall nt n (w w' : @world minix_host),
    @returns_x minix_host minix_hostx _ (nodes_remove nt n) w w' ->
    @observe_x minix_host minix_hostx _ (tree_nodes nt) w'
    = remove Nat.eq_dec n (@observe_x minix_host minix_hostx _ (tree_nodes nt) w).
Proof.
  intros nt n [m u] w' [r P]. simpl in P.
  destruct (existsb (Nat.eqb n) (MiniX.live_nodes (m, u) nt)); inversion P; subst.
  simpl. unfold MiniX.live_nodes. simpl. rewrite remove_filter.
  apply filter_ext. intro x. rewrite negb_involutive.
  rewrite negb_orb. reflexivity.
Qed.

Lemma minix_select_spec :
  forall n b (w w' : @world minix_host),
    @returns_x minix_host minix_hostx _ (set_node_select n b) w w' ->
    @observe_x minix_host minix_hostx _ (node_select_get n) w' = b
    /\ (forall n', n' <> n ->
          @observe_x minix_host minix_hostx _ (node_select_get n') w'
          = @observe_x minix_host minix_hostx _ (node_select_get n') w)
    /\ (forall nt,
          @observe_x minix_host minix_hostx _ (tree_nodes nt) w'
          = @observe_x minix_host minix_hostx _ (tree_nodes nt) w).
Proof.
  intros n b [m u] w' [r P]. simpl in P. inversion P; subst. simpl.
  split; [rewrite Nat.eqb_refl; reflexivity |].
  split; [| reflexivity].
  intros n' Hne. apply Nat.eqb_neq in Hne. rewrite Hne. reflexivity.
Qed.

Lemma minix_active_spec :
  forall nt n (w w' : @world minix_host),
    @returns_x minix_host minix_hostx _ (set_tree_active_node nt n) w w' ->
    @observe_x minix_host minix_hostx _ (tree_active_node nt) w' = Some n
    /\ (forall n',
          @observe_x minix_host minix_hostx _ (node_select_get n') w'
          = @observe_x minix_host minix_hostx _ (node_select_get n') w)
    /\ @observe_x minix_host minix_hostx _ (tree_nodes nt) w'
       = @observe_x minix_host minix_hostx _ (tree_nodes nt) w.
Proof.
  intros nt n [m u] w' [r P]. simpl in P. inversion P; subst. simpl.
  rewrite Nat.eqb_refl. repeat split.
Qed.

Lemma minix_location_x :
  forall n v (w w' : @world minix_host),
    @returns_x minix_host minix_hostx _ (set_node_location_x n v) w w' ->
    @observe_x minix_host minix_hostx _ (node_location_x n) w' = v
    /\ @observe_x minix_host minix_hostx _ (node_location_y n) w'
       = @observe_x minix_host minix_hostx _ (node_location_y n) w.
Proof.
  intros n v [m u] w' [r P]. simpl in P. inversion P; subst. simpl.
  rewrite Nat.eqb_refl. split; reflexivity.
Qed.

Lemma minix_location_y :
  forall n v (w w' : @world minix_host),
    @returns_x minix_host minix_hostx _ (set_node_location_y n v) w w' ->
    @observe_x minix_host minix_hostx _ (node_location_y n) w' = v
    /\ @observe_x minix_host minix_hostx _ (node_location_x n) w'
       = @observe_x minix_host minix_hostx _ (node_location_x n) w.
Proof.
  intros n v [m u] w' [r P]. simpl in P. inversion P; subst. simpl.
  rewrite Nat.eqb_refl. split; reflexivity.
Qed.







End MiniX_contract.

Section Duplicate_mesh.

Context {H : Host} {HX : HostX H}.

(** X18.  On a host where making an object active makes it the active
    object and selecting leaves the active object alone: when
    [duplicate_mesh] returns, the duplicate operator was called in a state
    in which the given object was the active one, after exactly the two
    calls that made it active and selected it, and the value returned is
    the object that is active after the operator. *)
Theorem duplicate_mesh_duplicates_active (o : obj) (s s' : StX) (r : option obj) :
  (forall o w w', returns_x (set_view_layer_active o) w w' ->
      observe context_active_object w' = Some o) ->
  (forall o b w w', returns_x (obj_select_set o b) w w' ->
      observe context_active_object w' = observe context_active_object w) ->
  duplicate_mesh o s = (Ok r, s') ->
  exists s2 status,
    xop ops_object_duplicate_move s2 = (Ok status, s')
    /\ observe context_active_object (xhost s2) = Some o
    /\ xcalls s2 = xcalls s ++ [Ext (set_view_layer_active o); Ext (obj_select_set o true)]
    /\ r = observe context_active_object (xhost s').
Proof.
  intros Ha Hs E. unfold duplicate_mesh in E.
  apply xbind_Ok in E. destruct E as ([] & s1 & E1 & E).
  apply xbind_Ok in E. destruct E as ([] & s2 & E2 & E).
  apply xbind_Ok in E. destruct E as (st & s3 & E3 & E).
  apply xbind_Ok in E. destruct E as (d & s0 & Er & E).
  rewrite lift_read in Er. inversion Er; subst d s0. clear Er.
  apply xret_Ok in E. destruct E as [-> ->].
  exists s2, st. split; [exact E3 |].
  split.
  - rewrite (Hs _ _ _ _ (xop_returns _ _ _ _ E2)).
    apply (Ha _ _ _ (xop_returns _ _ _ _ E1)).
  - split; [| reflexivity].
    apply xop_Ok in E1, E2. destruct E1 as [_ C1], E2 as [_ C2].
    rewrite C2, C1, <- app_assoc. reflexivity.
Qed.

End Duplicate_mesh.

(** ** More runs on the reference hosts *)

Section Runs_more.

Lemma purge_orphans_branch_by_major_witness :
  calls (snd (@purge_orphans mini_host 1 (start_state (3, 6, 0)%Z)))
  = [Logged (ops_outliner_orphans_purge purge_kw)]
  /\ exists d,
       calls (snd (@purge_orphans mini_host 2 (orphaned_state (2, 93, 4)%Z)))
       = Logged (ops_outliner_orphans_purge []) :: d.
Proof.
  split.
  - apply (proj1 (@purge_orphans_branch_by_major mini_host 0
                    (start_state (3, 6, 0)%Z) 3 6 0 eq_refl
                    ltac:(lia) ltac:(lia))). lia.
  - apply (proj2 (@purge_orphans_branch_by_major mini_host 1
                    (orphaned_state (2, 93, 4)%Z) 2 93 4 eq_refl
                    ltac:(lia) ltac:(lia))). lia.
Defined.

Lemma purge_orphans_call_count_witness :
  exists k,
    1 <= k /\ k <= 4
    /\ calls (snd (@purge_orphans mini_host 4 (orphaned_state (2, 83, 0)%Z)))
       = repeat (Logged (ops_outliner_orphans_purge [])) k.
Proof.
  assert (E : @purge_orphans mini_host 4 (orphaned_state (2, 83, 0)%Z)
              = (Ok tt, snd (@purge_orphans mini_host 4 (orphaned_state (2, 83, 0)%Z))))
    by (vm_compute; reflexivity).
  destruct (@purge_orphans_call_count mini_host mini_purge_keeps_version
              mini_purge_decreases 4 (orphaned_state (2, 83, 0)%Z)
              (snd (@purge_orphans mini_host 4 (orphaned_state (2, 83, 0)%Z)))
              eq_refl E) as (k & K1 & K2 & K3).
  exists k. split; [exact K1 |]. split; [exact K2 | exact K3].
Defined.

Lemma create_mesh_one_primitive_witness :
  calls (snd (@create_mesh mini_host "CUBE" zero3 (start_state (3, 6, 0)%Z)))
  = [Logged (ops_mesh_primitive_cube_add zero3)]
  /\ Some 4 = @observe mini_host _ context_active_object
                (host (snd (@create_mesh mini_host "CUBE" zero3
                              (start_state (3, 6, 0)%Z)))).
Proof.
  destruct (@create_mesh_one_primitive mini_host "CUBE" zero3
              (start_state (3, 6, 0)%Z)) as (_ & C & _ & A & _).
  split; [exact (C eq_refl) | apply A; vm_compute; reflexivity].
Defined.

Lemma set_scene_props_missing_world_witness :
  @set_scene_props mini_host 30 360 worldless_state
  = (Raise (KeyError "World"),
     @mkSt mini_host (Mini.set_scene_prop (host worldless_state) "frame_end" 360)
       (calls worldless_state ++ [Logged (set_scene_frame_end 360)])).
Proof.
  apply (@set_scene_props_missing_world mini_host); reflexivity.
Defined.

Lemma set_scene_props_calls_witness :
  let s := start_state (3, 6, 0)%Z in
  let s' := snd (@set_scene_props mini_host 24 48 s) in
  exists background,
    calls s' = [Logged (set_scene_frame_end 48)] ++ background
               ++ [Logged (set_scene_render_fps 24);
                   Logged (set_scene_frame_current 1);
                   Logged (set_scene_frame_start 1)].
Proof.
  intros s s'.
  assert (E : @set_scene_props mini_host 24 48 s = (Ok tt, s'))
    by (vm_compute; reflexivity).
  destruct (@set_scene_props_calls mini_host 24 48 s s' E)
    as (w1 & wd & nt & bg & _ & _ & _ & _ & C).
  exists bg. exact C.
Defined.

Lemma set_fcurve_extrapolation_needs_action_witness :
  exists a,
    @set_fcurve_extrapolation_to_linear mini_host (start_state (3, 6, 0)%Z)
    = (Raise (AttributeError "NoneType" a), start_state (3, 6, 0)%Z).
Proof.
  apply (@set_fcurve_extrapolation_needs_action mini_host). reflexivity.
Defined.

Lemma create_data_animation_loop_fails_after_keyframes_witness :
  let s := start_state (3, 6, 0)%Z in
  let s6 := snd (@create_data_animation_loop mini_host 2 "location" zero3 up2
                   (1 # 1) (120 # 1) false s) in
  Mini.keys (Mini.bl (host s6))
  = [(2, "location", (1 # 1)%Q, zero3);
     (2, "location", ((1 # 1) + (120 # 1) / 2)%Q, up2);
     (2, "location", ((1 # 1) + (120 # 1))%Q, zero3)]
  /\ exists a,
       @create_data_animation_loop mini_host 2 "location" zero3 up2
         (1 # 1) (120 # 1) true s
       = (Raise (AttributeError "NoneType" a), s6).
Proof.
  intros s s6. split; [reflexivity |].
  assert (E : @create_data_animation_loop mini_host 2 "location" zero3 up2
                (1 # 1) (120 # 1) false s = (Ok tt, s6))
    by (vm_compute; reflexivity).
  apply (@create_data_animation_loop_fails_after_keyframes mini_host _ _ _ _ _ _ _ _ E).
  vm_compute. reflexivity.
Defined.

Lemma set_selection_mode_calls_witness :
  let s := startx MiniX.startup_ui in
  let s' := snd (@set_selection_mode minix_host minix_hostx 1 "LASSO" s) in
  exists final,
    xcalls s' = switch_calls 1 "EDIT" ++ [final]
    /\ final = Base (Logged (py_print (unsupported_mode "LASSO"))).
Proof.
  intros s s'.
  assert (E : @set_selection_mode minix_host minix_hostx 1 "LASSO" s = (Ok tt, s'))
    by (vm_compute; reflexivity).
  destruct (@set_selection_mode_calls minix_host minix_hostx 1 "LASSO" s s' E)
    as (final & C & _ & _ & _ & U).
  exists final. split; [exact C | apply U; discriminate].
Defined.

Lemma enter_exit_edit_mode_witness :
  let s := startx MiniX.startup_ui in
  let s1 := snd (@enter_edit_mode minix_host minix_hostx 1 s) in
  let s2 := snd (@exit_edit_mode minix_host minix_hostx 1 s1) in
  @observe minix_host _ (obj_mode 1) (xhost s1) = "EDIT"
  /\ @observe minix_host _ (obj_mode 1) (xhost s2) = "OBJECT"
  /\ xcalls s2 = switch_calls 1 "EDIT" ++ switch_calls 1 "OBJECT".
Proof.
  intros s s1 s2.
  assert (E1 : @enter_edit_mode minix_host minix_hostx 1 s = (Ok tt, s1))
    by (vm_compute; reflexivity).
  assert (E2 : @exit_edit_mode minix_host minix_hostx 1 s1 = (Ok tt, s2))
    by (vm_compute; reflexivity).
  destruct (@enter_exit_edit_mode minix_host minix_hostx minix_make_active
              minix_select_keeps_active minix_mode_set_active 1 s s1)
    as (A & _ & C).
  destruct (A E1) as [M1 _]. destruct (C s2 E1 E2) as [M2 L].
  repeat split; assumption.
Defined.

Lemma clear_nodes_removes_all_witness :
  let s := startx MiniX.startup_ui in
  let s' := snd (@clear_nodes minix_host minix_hostx 1 s) in
  @observe_x minix_host minix_hostx _ (tree_nodes 1) (xhost s) = [0; 1]
  /\ xcalls s' = [Ext (nodes_remove 1 0); Ext (nodes_remove 1 1)]
  /\ @observe_x minix_host minix_hostx _ (tree_nodes 1) (xhost s') = [].
Proof.
  intros s s'. split; [reflexivity |].
  assert (E : @clear_nodes minix_host minix_hostx 1 s = (Ok tt, s'))
    by (vm_compute; reflexivity).
  exact (@clear_nodes_removes_all minix_host minix_hostx 1 s s'
           (minix_nodes_remove 1) E).
Defined.

Lemma duplicate_node_selects_only_it_witness :
  let s := startx MiniX.startup_ui in
  let r := @duplicate_node minix_host minix_hostx 1 0 s in
  fst r = Ok (Some 2)
  /\ exists s5 status,
       @xop minix_host minix_hostx _ ops_node_duplicate s5 = (Ok status, snd r)
       /\ @observe_x minix_host minix_hostx _ (node_select_get 0) (xhost s5) = true
       /\ @observe_x minix_host minix_hostx _ (tree_active_node 1) (xhost s5) = Some 0.
Proof.
  intros s r. split; [vm_compute; reflexivity |].
  assert (E : @duplicate_node minix_host minix_hostx 1 0 s = (Ok (Some 2), snd r))
    by (vm_compute; reflexivity).
  destruct (@duplicate_node_selects_only_it minix_host minix_hostx
              minix_select_spec minix_active_spec 1 0 s (snd r) (Some 2) E)
    as (s5 & st & A & B & C & _).
  exists s5, st. repeat split; assumption.
Defined.

Lemma move_node_adds_witness :
  let s := startx MiniX.startup_ui in
  let s' := snd (@move_node minix_host minix_hostx 0 (5 # 1) (-3 # 1) s) in
  @observe_x minix_host minix_hostx _ (node_location_x 0) (xhost s')
  = ((0 # 1) + (5 # 1))%Q
  /\ @observe_x minix_host minix_hostx _ (node_location_y 0) (xhost s')
     = ((0 # 1) + (-3 # 1))%Q.
Proof.
  intros s s'.
  assert (E : @move_node minix_host minix_hostx 0 (5 # 1) (-3 # 1) s = (Ok tt, s'))
    by (vm_compute; reflexivity).
  destruct (@move_node_adds minix_host minix_hostx 0 (5 # 1) (-3 # 1) s s'
              (minix_location_x 0) (minix_location_y 0) E) as (A & B & _).
  split; [exact A | exact B].
Defined.

Lemma get_active_geo_nodes_viewport_area_first_witness :
  @get_active_geo_nodes_viewport_area minix_host minix_hostx (startx MiniX.startup_ui)
  = (Ok (Some 1), startx MiniX.startup_ui).
Proof.
  destruct (@get_active_geo_nodes_viewport_area_first minix_host minix_hostx
              (startx MiniX.startup_ui)) as (_ & _ & A & _).
  exact (A eq_refl eq_refl).
Defined.

Lemma set_active_3d_view_to_wireframe_calls_witness :
  let s := startx MiniX.startup_ui in
  let s1 := snd (@enter_edit_mode minix_host minix_hostx 1 s) in
  xcalls (snd (@set_active_3d_view_to_wireframe minix_host minix_hostx s))
  = [Ext (set_space_shading_type 1 "WIREFRAME")]
  /\ xcalls (snd (@set_active_3d_view_to_wireframe minix_host minix_hostx s1))
     = xcalls s1 ++ [Base (Logged (py_print "Not in Object Mode!")); no_viewport].
Proof.
  intros s s1. split.
  - assert (E : @set_active_3d_view_to_wireframe minix_host minix_hostx s
                = (Ok tt, snd (@set_active_3d_view_to_wireframe minix_host minix_hostx s)))
      by (vm_compute; reflexivity).
    destruct (@set_active_3d_view_to_wireframe_calls minix_host minix_hostx _ _ E)
      as (_ & _ & A).
    destruct (A eq_refl eq_refl) as (sp & Hsp & C).
    vm_compute in Hsp. inversion Hsp; subst sp. exact C.
  - assert (E : @set_active_3d_view_to_wireframe minix_host minix_hostx s1
                = (Ok tt, snd (@set_active_3d_view_to_wireframe minix_host minix_hostx s1)))
      by (vm_compute; reflexivity).
    destruct (@set_active_3d_view_to_wireframe_calls minix_host minix_hostx _ _ E)
      as (A & _).
    apply A. vm_compute. discriminate.
Defined.


Lemma duplicate_mesh_duplicates_active_witness :
  let s := startx MiniX.startup_ui in
  let r := @duplicate_mesh minix_host minix_hostx 1 s in
  fst r = Ok (Some 4)
  /\ exists s2 status,
       @xop minix_host minix_hostx _ ops_object_duplicate_move s2 = (Ok status, snd r)
       /\ @observe minix_host _ context_active_object (xhost s2) = Some 1.
Proof.
  intros s r. split; [vm_compute; reflexivity |].
  assert (E : @duplicate_mesh minix_host minix_hostx 1 s = (Ok (Some 4), snd r))
    by (vm_compute; reflexivity).
  destruct (@duplicate_mesh_duplicates_active minix_host minix_hostx 1 s (snd r)
              (Some 4) minix_make_active minix_select_keeps_active E)
    as (s2 & st & A & B & _).
  exists s2, st. split; assumption.
Defined.

End Runs_more.
